(** * The task store of [finalproject/task_manager.py]

    A shallow embedding of the record-store engine: the storage layer
    ([_load], [_save], [_next_id]), the mutations ([add_task],
    [complete_task], [delete_task], [set_priority], [edit_task]), the query
    layer ([list_tasks], [search_tasks]) and the statistics ([get_overview]).

    Modelling choices.
    - A task is a Python dict with a fixed set of keys; it is a record here.
      Integers are unbounded ([Z]); strings are [string]; [None] is
      [option].  The status is the string the code compares, not an enum.
    - Every function receives [store_path]; the development follows one
      store, whose file is the [disk] component of the [world].  What
      [json.load] makes of the file is part of the file's state.
    - The world also logs every call of [_save], so that "does not save"
      is a statement about the log, and it carries the script of what the
      file system does at the coming writes, so that an I/O failure in
      [_save] is an outcome of the model.  An operation returns a value or
      raises; [bind] propagates a raise as Python does.
    - The clock, the current date and the text generator behind
      [_generate_summary] are inputs of the operations that read them.

    Scope.  A collection is a list of records that have every key, with
    values of the expected types, as [add_task] writes them.  The code
    does not check what it loads: on a JSON array with other elements it
    raises [TypeError] or [KeyError] where it reads a key, and
    [store_path.exists()] stands outside the [try] of [_load]; neither is
    covered here.  Text is a string of bytes: [PyStr.lower] and the digits
    of [PyDate.strptime_ymd] are those of ASCII, where Python also knows
    the cased letters and decimal digits of the rest of Unicode: what is
    proved of lower-casing and of date parsing is proved of ASCII text. *)

From Stdlib Require Import ZArith List Bool Ascii String Lia.
From Stdlib Require Import Permutation Sorted.
Import ListNotations.

Local Open Scope string_scope.
Local Open Scope list_scope.
Local Open Scope Z_scope.

(** ** Python string operations used by the code *)

Module PyStr.

(** [c.lower()] on one character (the ASCII letters). *)
Definition lower_char (c : ascii) : ascii :=
  let n := nat_of_ascii c in
  if (Nat.leb 65 n && Nat.leb n 90)%bool then ascii_of_nat (n + 32) else c.

(** [s.lower()]. *)
Fixpoint lower (s : string) : string :=
  match s with
  | EmptyString => EmptyString
  | String c s' => String (lower_char c) (lower s')
  end.

(** [s.startswith(q)]. *)
Definition startswith (s q : string) : bool := String.prefix q s.

(** [q in s]: [q] occurs in [s] at some offset. *)
Fixpoint contains (q s : string) : bool :=
  String.prefix q s ||
  match s with
  | EmptyString => false
  | String _ s' => contains q s'
  end.

(** Truth value of a string: only the empty string is falsy. *)
Definition truthy (s : string) : bool := negb (s =? "")%string.

(** Truth value of an optional string: [None] and [""] are falsy. *)
Definition truthy_opt (o : option string) : bool :=
  match o with
  | Some s => truthy s
  | None => false
  end.

(** [o or default] for an optional string. *)
Definition or_else (o : option string) (default : string) : string :=
  match o with
  | Some s => if truthy s then s else default
  | None => default
  end.

End PyStr.

(** ** Data model *)

Record Task : Type := mkTask {
  t_id : Z;
  t_title : string;
  t_description : string;
  t_created_at : string;
  t_due_date : option string;
  t_priority : Z;
  t_status : string;
  t_summary : string
}.

Definition set_status (v : string) (t : Task) : Task :=
  mkTask (t_id t) (t_title t) (t_description t) (t_created_at t)
         (t_due_date t) (t_priority t) v (t_summary t).

Definition set_task_priority (v : Z) (t : Task) : Task :=
  mkTask (t_id t) (t_title t) (t_description t) (t_created_at t)
         (t_due_date t) v (t_status t) (t_summary t).

Definition set_title (v : string) (t : Task) : Task :=
  mkTask (t_id t) v (t_description t) (t_created_at t)
         (t_due_date t) (t_priority t) (t_status t) (t_summary t).

Definition set_description (v : string) (t : Task) : Task :=
  mkTask (t_id t) (t_title t) v (t_created_at t)
         (t_due_date t) (t_priority t) (t_status t) (t_summary t).

Definition set_due_date (v : option string) (t : Task) : Task :=
  mkTask (t_id t) (t_title t) (t_description t) (t_created_at t)
         v (t_priority t) (t_status t) (t_summary t).

(** ** The store and its file *)

(** A decoded JSON document whose top-level value is not an array. *)
Inductive json_top : Type :=
| JNull
| JBool (b : bool)
| JNumber (n : Z)
| JString (s : string)
| JObject (keys : list string).

(** State of the file at [store_path], as [_load] can tell it apart:
    - [Missing]: [store_path.exists()] is false;
    - [Undecodable text]: opening or [json.load] raises (the empty file is
      [Undecodable ""]);
    - [NonArray j]: [json.load] returns a value that is not a list;
    - [Array tasks]: [json.load] returns the list [tasks];
    - [Truncated intended]: the file was emptied by [open("w")] and holds a
      proper prefix of the text of [intended], which lacks at least the
      closing bracket, so [json.load] raises. *)
Inductive file_state : Type :=
| Missing
| Undecodable (text : string)
| NonArray (j : json_top)
| Array (tasks : list Task)
| Truncated (intended : list Task).

(** What the file system does at one call of [_save]: the write goes
    through, [open("w")] fails and leaves the file alone, or the file is
    opened (and so emptied) and the write fails before its end. *)
Inductive write_event : Type :=
| WriteOk
| OpenFails
| WriteFails.

Record world : Type := mkWorld {
  disk : file_state;
  save_calls : list (list Task);  (* every collection handed to _save, newest first *)
  io_script : list write_event    (* the coming writes; past its end all succeed *)
}.

Inductive exn : Type := OSError.

Inductive outcome (A : Type) : Type :=
| Returned (a : A)
| Raised (e : exn).

Arguments Returned {A} a.
Arguments Raised {A} e.

(** Computations over the world that return or raise. *)
Definition IO (A : Type) : Type := world -> outcome A * world.

Definition ret {A : Type} (a : A) : IO A := fun w => (Returned a, w).

Definition bind {A B : Type} (m : IO A) (k : A -> IO B) : IO B :=
  fun w =>
    match m w with
    | (Returned a, w') => k a w'
    | (Raised e, w') => (Raised e, w')
    end.

Notation "x <- m ;; k" := (bind m (fun x => k))
  (at level 61, m at next level, right associativity).
Notation "m ;;; k" := (bind m (fun _ => k))
  (at level 61, right associativity).

(** The [except Exception] of [_load] turns every failure of opening and
    decoding into the empty list.  [store_path.exists()] is taken to
    answer, and a list that is returned holds records (see Scope above). *)
Definition _load : IO (list Task) :=
  fun w =>
    match disk w with
    | Missing => (Returned [], w)
    | Undecodable _ => (Returned [], w)
    | Truncated _ => (Returned [], w)
    | NonArray _ => (Returned [], w)
    | Array data => (Returned data, w)
    end.

(** [_save] has no handler: a failure of [open] or of the write leaves it
    as [OSError]. *)
Definition _save (tasks : list Task) : IO unit :=
  fun w =>
    let calls := tasks :: save_calls w in
    match io_script w with
    | [] => (Returned tt, mkWorld (Array tasks) calls [])
    | WriteOk :: script => (Returned tt, mkWorld (Array tasks) calls script)
    | OpenFails :: script => (Raised OSError, mkWorld (disk w) calls script)
    | WriteFails :: script => (Raised OSError, mkWorld (Truncated tasks) calls script)
    end.

(** [max((t["id"] for t in tasks), default=0)]: the default is used only
    for the empty collection. *)
Definition max_id (tasks : list Task) : Z :=
  match tasks with
  | [] => 0
  | t :: rest => fold_left (fun m u => Z.max m (t_id u)) rest (t_id t)
  end.

Definition _next_id (tasks : list Task) : Z := max_id tasks + 1.

(** ** Calendar dates and [datetime.strptime(s, "%Y-%m-%d")] *)

Module PyDate.

Record date : Type := mkDate { year : Z; month : Z; day : Z }.

(** [a < b] on [datetime.date] values. *)
Definition date_ltb (a b : date) : bool :=
  (year a <? year b) ||
  ((year a =? year b) &&
   ((month a <? month b) || ((month a =? month b) && (day a <? day b)))).

Definition is_leap (y : Z) : bool :=
  (y mod 4 =? 0) && (negb (y mod 100 =? 0) || (y mod 400 =? 0)).

Definition days_in_month (y m : Z) : Z :=
  if m =? 2 then (if is_leap y then 29 else 28)
  else if (m =? 4) || (m =? 6) || (m =? 9) || (m =? 11) then 30
  else 31.

Definition is_digit (c : ascii) : bool :=
  let n := nat_of_ascii c in (Nat.leb 48 n && Nat.leb n 57)%bool.

Definition digit (c : ascii) : Z := Z.of_nat (nat_of_ascii c) - 48.

Definition dash : ascii := "-"%char.
Definition space : ascii := " "%char.

(** The directive [%Y]: exactly four digits. *)
Definition parse_year (s : string) : option (Z * string) :=
  match s with
  | String a (String b (String c (String d rest))) =>
      if is_digit a && is_digit b && is_digit c && is_digit d
      then Some (1000 * digit a + 100 * digit b + 10 * digit c + digit d, rest)
      else None
  | _ => None
  end.

(** The directive [%m] followed by the literal dash: [1[0-2]], [0[1-9]]
    or [[1-9]]. *)
Definition parse_month (s : string) : option (Z * string) :=
  match s with
  | String a (String b rest) =>
      if Ascii.eqb b dash then
        if is_digit a && (1 <=? digit a) then Some (digit a, rest) else None
      else
        match rest with
        | String c rest' =>
            if Ascii.eqb c dash && is_digit a && is_digit b then
              let m := 10 * digit a + digit b in
              if (1 <=? m) && (m <=? 12) then Some (m, rest') else None
            else None
        | EmptyString => None
        end
  | _ => None
  end.

(** The directive [%d] at the end of the text: [3[01]], [[12]\d],
    [0[1-9]], [[1-9]] or a space and [[1-9]]. *)
Definition parse_day (s : string) : option Z :=
  match s with
  | String a EmptyString =>
      if is_digit a && (1 <=? digit a) then Some (digit a) else None
  | String a (String b EmptyString) =>
      if Ascii.eqb a space then
        if is_digit b && (1 <=? digit b) then Some (digit b) else None
      else if is_digit a && is_digit b then
        let d := 10 * digit a + digit b in
        if (1 <=? d) && (d <=? 31) then Some d else None
      else None
  | _ => None
  end.

(** [datetime.strptime(s, "%Y-%m-%d")] on text whose digits are ASCII:
    [None] stands for [ValueError].  The year must be at least 1 and the
    day must exist in the month. *)
Definition strptime_ymd (s : string) : option date :=
  match parse_year s with
  | Some (y, String c rest) =>
      if Ascii.eqb c dash then
        match parse_month rest with
        | Some (m, rest') =>
            match parse_day rest' with
            | Some d =>
                if (1 <=? y) && (d <=? days_in_month y m)
                then Some (mkDate y m d) else None
            | None => None
            end
        | None => None
        end
      else None
  | _ => None
  end.

End PyDate.
Import PyDate.

(** ** Mutations *)

(** The loop [for t in tasks: if t["id"] == task_id: <mutate t>; ...;
    return True] changes the first record with that id in place and leaves
    the loop; [None] stands for running off the end of the list. *)
Fixpoint update_first (task_id : Z) (f : Task -> Task) (tasks : list Task)
  : option (list Task) :=
  match tasks with
  | [] => None
  | t :: rest =>
      if t_id t =? task_id then Some (f t :: rest)
      else option_map (cons t) (update_first task_id f rest)
  end.

(** [now] is what [_now_iso()] returns during the call and [gen] is
    [_generate_summary]. *)
Definition add_task (now : string) (gen : string -> string -> string)
    (title description : string) (due_date : option string)
    (priority : Z) (summarize : bool) : IO Task :=
  tasks <- _load ;;
  let priority := if (priority <? 1) || (priority >? 5) then 3 else priority in
  let due_date :=
    match due_date with
    | Some d =>
        if PyStr.truthy d then
          match strptime_ymd d with
          | Some _ => Some d
          | None => None
          end
        else Some d
    | None => None
    end in
  let task :=
    mkTask (_next_id tasks) title description now due_date priority "pending"
           (if summarize then gen title description else "") in
  let tasks := tasks ++ [task] in
  _save tasks ;;; ret task.

Definition complete_task (task_id : Z) : IO bool :=
  tasks <- _load ;;
  match update_first task_id (set_status "complete") tasks with
  | Some tasks' => _save tasks' ;;; ret true
  | None => ret false
  end.

Definition delete_task (task_id : Z) : IO bool :=
  tasks <- _load ;;
  let new_tasks := filter (fun t => negb (t_id t =? task_id)) tasks in
  if negb (Nat.eqb (List.length new_tasks) (List.length tasks))
  then _save new_tasks ;;; ret true
  else ret false.

Definition set_priority (task_id priority : Z) : IO bool :=
  if (priority <? 1) || (priority >? 5) then ret false
  else
    tasks <- _load ;;
    match update_first task_id (set_task_priority priority) tasks with
    | Some tasks' => _save tasks' ;;; ret true
    | None => ret false
    end.

(** The body of the [if t["id"] == task_id:] branch of [edit_task]. *)
Definition edit_fields (title description due_date : option string)
    (t : Task) : Task :=
  let t := match title with Some v => set_title v t | None => t end in
  let t := match description with Some v => set_description v t | None => t end in
  match due_date with
  | Some d =>
      if PyStr.truthy d then
        match strptime_ymd d with
        | Some _ => set_due_date (Some d) t
        | None => t
        end
      else set_due_date None t
  | None => t
  end.

Definition edit_task (task_id : Z) (title description due_date : option string)
  : IO bool :=
  tasks <- _load ;;
  match update_first task_id (edit_fields title description due_date) tasks with
  | Some tasks' => _save tasks' ;;; ret true
  | None => ret false
  end.

(** ** Queries *)

(** Python compares tuples by their first differing component. *)
Definition tuple_ltb {A B : Type} (eqA ltA : A -> A -> bool)
    (ltB : B -> B -> bool) (x y : A * B) : bool :=
  if eqA (fst x) (fst y) then ltB (snd x) (snd y) else ltA (fst x) (fst y).

Section Sorted.
Context {A K : Type} (ltb : K -> K -> bool) (key : A -> K).

(** Place [x], which preceded every element of [l] in the input, before
    the first element whose key is not smaller than its own. *)
Fixpoint insert (x : A) (l : list A) : list A :=
  match l with
  | [] => [x]
  | y :: l' => if ltb (key y) (key x) then y :: insert x l' else x :: l
  end.

(** [sorted(l, key=key)]: the stable sort of [l], which uses only [<] on
    the keys. *)
Fixpoint sorted (l : list A) : list A :=
  match l with
  | [] => []
  | x :: l' => insert x (sorted l')
  end.
End Sorted.

Definition due_or_max (t : Task) : string :=
  PyStr.or_else (t_due_date t) "9999-12-31".

(** [sort_key] when [sort_mode == "due"]. *)
Definition sort_key_due (t : Task) : string * Z := (due_or_max t, t_priority t).

(** [sort_key] for every other [sort_mode]. *)
Definition sort_key_priority (t : Task) : Z * string := (t_priority t, due_or_max t).

(** [<] on the keys of either mode. *)
Definition due_key_ltb : string * Z -> string * Z -> bool :=
  tuple_ltb String.eqb String.ltb Z.ltb.

Definition priority_key_ltb : Z * string -> Z * string -> bool :=
  tuple_ltb Z.eqb Z.ltb String.ltb.

Definition list_tasks (filter_mode sort_mode : string) : IO (list Task) :=
  tasks <- _load ;;
  let tasks :=
    if (filter_mode =? "pending")%string
    then filter (fun t => (t_status t =? "pending")%string) tasks
    else if (filter_mode =? "completed")%string
    then filter (fun t => (t_status t =? "complete")%string) tasks
    else tasks in
  ret (if (sort_mode =? "due")%string
       then sorted due_key_ltb sort_key_due tasks
       else sorted priority_key_ltb sort_key_priority tasks).

(** One iteration of the loop of [search_tasks]; the accumulator is
    [(prefix_matches, other_matches)]. *)
Definition search_step (q : string) (acc : list Task * list Task) (t : Task)
  : list Task * list Task :=
  let (prefix_matches, other_matches) := acc in
  let title_lower := PyStr.lower (t_title t) in
  let desc_lower := PyStr.lower (t_description t) in
  let summary_lower := PyStr.lower (t_summary t) in
  if PyStr.startswith title_lower q then (prefix_matches ++ [t], other_matches)
  else if PyStr.contains q title_lower || PyStr.contains q desc_lower
          || PyStr.contains q summary_lower
  then (prefix_matches, other_matches ++ [t])
  else (prefix_matches, other_matches).

Definition search_tasks (query : string) : IO (list Task) :=
  tasks <- _load ;;
  let q := PyStr.lower query in
  let (prefix_matches, other_matches) := fold_left (search_step q) tasks ([], []) in
  ret (prefix_matches ++ other_matches).

(** ** Statistics *)

Record overview : Type := mkOverview {
  total : Z;
  incomplete : Z;
  high_priority : Z;
  overdue : Z
}.

Definition len {A : Type} (l : list A) : Z := Z.of_nat (List.length l).

(** One iteration of the loop that counts overdue tasks. *)
Definition overdue_step (today : date) (overdue : Z) (t : Task) : Z :=
  if PyStr.truthy_opt (t_due_date t) then
    match t_due_date t with
    | Some s =>
        match strptime_ymd s with
        | Some due => if date_ltb due today then overdue + 1 else overdue
        | None => overdue
        end
    | None => overdue
    end
  else overdue.

(** [today] is [datetime.now(timezone.utc).date()] during the call. *)
Definition get_overview (today : date) : IO overview :=
  tasks <- _load ;;
  let total := len tasks in
  let incomplete := len (filter (fun t => (t_status t =? "pending")%string) tasks) in
  let pending_tasks := filter (fun t => (t_status t =? "pending")%string) tasks in
  let high_priority := len (filter (fun t => t_priority t <=? 2) pending_tasks) in
  let overdue := fold_left (overdue_step today) pending_tasks 0 in
  ret (mkOverview total incomplete high_priority overdue).

(** ** Observing the store *)

(** The collection an operation sees when it starts in [w]. *)
Definition collection (w : world) : list Task :=
  match fst (_load w) with
  | Returned tasks => tasks
  | Raised _ => []
  end.

(** No write of the script fails. *)
Definition healthy (w : world) : Prop :=
  Forall (fun e => e = WriteOk) (io_script w).

(** The next write fails. *)
Definition failing_write (script : list write_event) : Prop :=
  match script with
  | OpenFails :: _ => True
  | WriteFails :: _ => True
  | _ => False
  end.

(** The world after a call of [_save] that went through. *)
Definition saved (tasks : list Task) (w : world) : world :=
  mkWorld (Array tasks) (tasks :: save_calls w) (tl (io_script w)).

(** The files from which [_load] cannot get a list. *)
Definition unusable (f : file_state) : Prop :=
  match f with
  | Array _ => False
  | _ => True
  end.

Definition ids (tasks : list Task) : list Z := map t_id tasks.
Definition titles (tasks : list Task) : list string := map t_title tasks.

(** The first record with a given id, which is the one the loops reach. *)
Definition lookup (task_id : Z) (tasks : list Task) : option Task :=
  find (fun t => t_id t =? task_id) tasks.

(** ** Small stores *)

Definition empty_world : world := mkWorld Missing [] [].
Definition no_summary (_ _ : string) : string := "".
Definition clock : string := "2025-11-22T00:00:00+00:00".

Definition task1 : Task :=
  mkTask 1 "Task" "" clock (Some "2025-12-01") 3 "pending" "".

Definition one_task_world : world := mkWorld (Array [task1]) [] [].

(** The same store on a disk whose next write fails after the file was
    opened. *)
Definition failing_disk_world : world := mkWorld (Array [task1]) [] [WriteFails].

(** The store of the search test: four adds on a fresh store. *)
Definition search_world : world :=
  let add title description w :=
    snd (add_task clock no_summary title description None 3 false w) in
  add "Remember birthday" ""
    (add "Buy groceries" ""
       (add "Do laundry" "Buy bleach and detergent"
          (add "Brush teeth" "" empty_world))).

(** A store with one pending overdue record, one pending record of
    priority 1 and one completed record. *)
Definition overview_world : world :=
  mkWorld
    (Array
       [mkTask 1 "Late" "" clock (Some "2025-01-31") 3 "pending" "";
        mkTask 2 "Important" "" clock None 1 "pending" "";
        mkTask 3 "Done" "" clock None 3 "complete" ""])
    [] [].

(** A store built by two adds: a low-priority record due on the last day
    of year 9999 and an urgent record without a due date. *)
Definition far_future_world : world :=
  let w := snd (add_task clock no_summary "Time capsule" ""
                         (Some "9999-12-31") 5 false empty_world) in
  snd (add_task clock no_summary "Urgent" "" None 1 false w).

Definition capsule_task : Task :=
  mkTask 1 "Time capsule" "" clock (Some "9999-12-31") 5 "pending" "".

Definition urgent_task : Task :=
  mkTask 2 "Urgent" "" clock None 1 "pending" "".

Definition someday_task : Task :=
  mkTask 3 "Someday" "" clock (Some "2025-12-01") 5 "pending" "".

(** An urgent record without a due date stored before a low-priority
    record with one. *)
Definition mixed_world : world :=
  mkWorld (Array [urgent_task; someday_task]) [] [].

(** ** The specification's reading of the claims *)


(** A history of adds and deletes; it returns the ids its adds assigned. *)
Inductive op : Type :=
| Add (title : string) (priority : Z)
| Delete (task_id : Z).

Fixpoint run_history (ops : list op) : IO (list Z) :=
  match ops with
  | [] => ret []
  | Add title priority :: ops' =>
      t <- add_task clock no_summary title "" None priority false ;;
      assigned <- run_history ops' ;;
      ret (t_id t :: assigned)
  | Delete task_id :: ops' =>
      delete_task task_id ;;; run_history ops'
  end.

(** "ids are never reused": after any history, the id of a new record is
    above every id the history assigned. *)
Definition ids_never_reused : Prop :=
  forall (ops : list op) (w w' w'' : world) (assigned : list Z)
         (title : string) (priority : Z) (t : Task),
    title <> "" -> 1 <= priority <= 5 ->
    run_history ops w = (Returned assigned, w') ->
    add_task clock no_summary title "" None priority false w' = (Returned t, w'') ->
    Forall (fun i => i < t_id t) assigned.

(** Tier 1 of the search: the lower-cased title starts with the lower-cased
    query. *)
Definition tier1 (query : string) (t : Task) : bool :=
  PyStr.startswith (PyStr.lower (t_title t)) (PyStr.lower query).

(** Tier 2 of the search: not in Tier 1, and the lower-cased title,
    description or summary contains the lower-cased query. *)
Definition tier2 (query : string) (t : Task) : bool :=
  negb (tier1 query t) &&
  (PyStr.contains (PyStr.lower query) (PyStr.lower (t_title t)) ||
   PyStr.contains (PyStr.lower query) (PyStr.lower (t_description t)) ||
   PyStr.contains (PyStr.lower query) (PyStr.lower (t_summary t))).

Definition is_pending (t : Task) : bool := (t_status t =? "pending")%string.

Definition is_high_priority (t : Task) : bool :=
  is_pending t && (t_priority t <=? 2).

(** Pending, with a due date that is present, parses, and lies strictly
    before [today]. *)
Definition is_overdue (today : date) (t : Task) : bool :=
  is_pending t &&
  match t_due_date t with
  | Some s =>
      match strptime_ymd s with
      | Some due => date_ltb due today
      | None => false
      end
  | None => false
  end.

(** "an invalid due date is ignored": whatever text that is not a date is
    supplied, the record keeps its due date. *)
Definition invalid_due_date_is_ignored : Prop :=
  forall (task_id : Z) (title description : option string) (d : string)
         (w w' : world) (t : Task),
    lookup task_id (collection w) = Some t ->
    strptime_ymd d = None ->
    edit_task task_id title description (Some d) w = (Returned true, w') ->
    option_map t_due_date (lookup task_id (collection w')) = Some (t_due_date t).

(** The records that [filter_mode] keeps. *)
Definition selected (filter_mode : string) (t : Task) : bool :=
  if (filter_mode =? "pending")%string then (t_status t =? "pending")%string
  else if (filter_mode =? "completed")%string then (t_status t =? "complete")%string
  else true.

(** [a] may stand before [b] in sorted output: the key of [b] is not
    smaller than the key of [a]. *)
Definition not_after {A K : Type} (ltb : K -> K -> bool) (key : A -> K)
    (a b : A) : Prop :=
  ltb (key b) (key a) = false.

(** The order of [sort_mode == "due"]: by the due date text, where a record
    without one counts as "9999-12-31", then by priority. *)
Definition due_order (a b : Task) : Prop :=
  (due_or_max a <? due_or_max b)%string = true \/
  (due_or_max a = due_or_max b /\ t_priority a <= t_priority b).

(** [x] comes somewhere before [y] in [l]. *)
Definition precedes (l : list Task) (x y : Task) : Prop :=
  exists l1 l2 l3, l = l1 ++ x :: l2 ++ y :: l3.

(** "dateless tasks sort after every dated task": in the output of the due
    sort no record without a due date comes before a record with one. *)
Definition dateless_always_last : Prop :=
  forall (filter_mode : string) (w w' : world) (out : list Task) (x y : Task),
    list_tasks filter_mode "due" w = (Returned out, w') ->
    t_due_date x = None -> t_due_date y <> None ->
    ~ precedes out x y.

(** ** The remaining operations of the store *)

Definition clear_tasks : IO Z :=
  tasks <- _load ;;
  let count := len tasks in
  if 0 <? count then _save [] ;;; ret count else ret count.

(** [try: m except Exception: handler]. *)
Definition catch {A : Type} (m : IO A) (handler : exn -> IO A) : IO A :=
  fun w =>
    match m w with
    | (Returned a, w') => (Returned a, w')
    | (Raised e, w') => handler e w'
    end.

(** ** The text service *)

(** The methods of [str] and [int] that the code calls on the text the
    service sends back.  They are inputs of the model: the theorems hold
    whatever they do, in particular on text outside ASCII. *)
Record py_text : Type := mkPyText {
  strip : string -> string;                   (* s.strip() *)
  lstrip_chars : string -> string -> string;  (* s.lstrip(chars) *)
  int_of_str : string -> option Z             (* int(s); None stands for ValueError *)
}.

(** The arguments of [client.chat.completions.create]: the model, the text
    of the single user message, [max_tokens] and the temperature in
    tenths. *)
Record request : Type := mkRequest {
  model : string;
  prompt : string;
  max_tokens : Z;
  temperature_tenths : Z
}.

(** What comes of a request: [resp.choices[0].message.content], or the
    class name of what was raised before the text was at hand. *)
Inductive reply : Type :=
| Content (text : string)
| Failure (class_name : string).

(** [available] is false when [OpenAI is None or not
    os.getenv("OPENAI_API_KEY")]. *)
Record service : Type := mkService {
  available : bool;
  create : request -> reply
}.

Definition newline : string := String (ascii_of_nat 10) EmptyString.
Definition colon : ascii := ":"%char.
Definition linefeed : ascii := ascii_of_nat 10.

(** [s.split(sep)] for a separator of one character. *)
Fixpoint split_on (sep : ascii) (s : string) : list string :=
  match s with
  | EmptyString => [EmptyString]
  | String c s' =>
      match split_on sep s' with
      | piece :: pieces =>
          if Ascii.eqb c sep then EmptyString :: piece :: pieces
          else String c piece :: pieces
      | [] => [String c EmptyString]
      end
  end.

(** The loop [for t in tasks: if t["id"] == task_id: target_task = t;
    break]: the records before the first one with the id, that record, and
    the records after it. *)
Fixpoint split_at_first (task_id : Z) (tasks : list Task)
  : option (list Task * Task * list Task) :=
  match tasks with
  | [] => None
  | t :: rest =>
      if t_id t =? task_id then Some ([], t, rest)
      else
        match split_at_first task_id rest with
        | Some (before, target, after) => Some (t :: before, target, after)
        | None => None
        end
  end.

Definition priority_prompt (target_task : Task) : string :=
  ("You are a task prioritization expert. Analyze the following task and assign a priority level "
   ++ "from 1 (highest/most urgent) to 5 (lowest/least urgent)." ++ newline ++ newline
   ++ "Task Title: " ++ t_title target_task ++ newline
   ++ "Description: " ++ t_description target_task ++ newline
   ++ "Due Date: "
   ++ match t_due_date target_task with Some d => d | None => "None" end
   ++ newline ++ newline
   ++ "Consider:" ++ newline
   ++ "- Urgency (due date proximity)" ++ newline
   ++ "- Importance (impact and consequences)" ++ newline
   ++ "- Dependencies and blocking factors" ++ newline
   ++ "- Complexity and time required" ++ newline ++ newline
   ++ "Respond with ONLY a single number (1-5) and a brief explanation (max 40 words) in this format:"
   ++ newline
   ++ "Priority: <number>" ++ newline
   ++ "Reason: <explanation>")%string.

(** The inner [try] of a line that starts with "Priority:": [IndexError]
    and [ValueError] give 3, and so does a number outside 1..5. *)
Definition priority_of_line (py : py_text) (line : string) : Z :=
  match nth_error (split_on colon line) 1 with
  | Some piece =>
      match int_of_str py (strip py piece) with
      | Some priority => if (priority <? 1) || (priority >? 5) then 3 else priority
      | None => 3
      end
  | None => 3
  end.

(** One iteration of the loop over the lines of the response.  The branch
    for "Reason:" only feeds [print] and the terminal is not part of the
    world, so the reason is not carried. *)
Definition response_step (py : py_text) (priority : option Z) (line : string)
  : option Z :=
  if PyStr.startswith line "Priority:" then Some (priority_of_line py line)
  else priority.

(** The priority read from the response: [None] after the loop gives 3. *)
Definition response_priority (py : py_text) (content : string) : Z :=
  match fold_left (response_step py) (split_on linefeed content) None with
  | Some priority => priority
  | None => 3
  end.

(** Whatever is raised inside the [try], by the service or by [_save],
    ends in [return None]. *)
Definition prioritize_task (py : py_text) (svc : service) (task_id : Z)
  : IO (option Z) :=
  if negb (available svc) then ret None
  else
    tasks <- _load ;;
    match split_at_first task_id tasks with
    | None => ret None
    | Some (before, target_task, after) =>
        match create svc (mkRequest "gpt-4o-mini" (priority_prompt target_task) 100 3) with
        | Failure _ => ret None
        | Content text =>
            let content := strip py text in
            let priority := response_priority py content in
            let tasks := before ++ set_task_priority priority target_task :: after in
            catch (_save tasks ;;; ret (Some priority)) (fun _ => ret None)
        end
    end.

(** One iteration of the loop that builds [task_summary]. *)
Definition summary_step (task_summary : string) (t : Task) : string :=
  let task_summary := (task_summary ++ "- " ++ t_title t)%string in
  let task_summary :=
    if PyStr.truthy (t_description t)
    then (task_summary ++ ": " ++ t_description t)%string
    else task_summary in
  (task_summary ++ newline)%string.

Definition suggestion_prompt (pending_tasks : list Task) (context : string) : string :=
  let task_summary :=
    match pending_tasks with
    | [] => EmptyString
    | _ :: _ =>
        fold_left summary_step (firstn 10 pending_tasks)
                  ("Current pending tasks:" ++ newline)%string
    end in
  let prompt :=
    ("You are a productivity assistant. Based on the following information, "
     ++ "suggest 3-5 new tasks that would be helpful." ++ newline ++ newline)%string in
  let prompt :=
    if PyStr.truthy task_summary then (prompt ++ task_summary ++ newline)%string
    else prompt in
  let prompt :=
    if PyStr.truthy context
    then (prompt ++ "Additional context: " ++ context ++ newline ++ newline)%string
    else prompt in
  (prompt
   ++ "Provide task suggestions as a simple list. "
   ++ "Each suggestion should be concise (one line per task). "
   ++ "Format: just the task title/description, no numbers or bullets.")%string.

(** One iteration of the loop that removes list markers. *)
Definition clean_step (py : py_text) (cleaned : list string) (s : string)
  : list string :=
  let s := strip py (lstrip_chars py s "0123456789.-•* ") in
  if PyStr.truthy s then cleaned ++ [s] else cleaned.

Definition clean_suggestions (py : py_text) (content : string) : list string :=
  let suggestions :=
    map (strip py)
        (filter (fun line => PyStr.truthy (strip py line))
                (split_on linefeed content)) in
  let cleaned := fold_left (clean_step py) suggestions [] in
  match cleaned with
  | [] => ["No suggestions generated"]
  | _ :: _ => cleaned
  end.

Definition suggest_tasks (py : py_text) (svc : service) (context : string)
  : IO (list string) :=
  if negb (available svc)
  then ret ["(Task suggestions unavailable: OpenAI API key not set)"]
  else
    tasks <- _load ;;
    let pending_tasks := filter (fun t => (t_status t =? "pending")%string) tasks in
    match create svc (mkRequest "gpt-4o-mini" (suggestion_prompt pending_tasks context)
                                300 7) with
    | Content text => ret (clean_suggestions py (strip py text))
    | Failure class_name => ret [("(Suggestion error: " ++ class_name ++ ")")%string]
    end.

(** ** Text primitives on ASCII, to run the model *)

Definition is_space (c : ascii) : bool :=
  let n := nat_of_ascii c in
  (Nat.eqb n 32 || (Nat.leb 9 n && Nat.leb n 13) || (Nat.leb 28 n && Nat.leb n 31))%bool.

Fixpoint lstrip_while (p : ascii -> bool) (s : string) : string :=
  match s with
  | EmptyString => EmptyString
  | String c s' => if p c then lstrip_while p s' else s
  end.

Fixpoint rev_string (s acc : string) : string :=
  match s with
  | EmptyString => acc
  | String c s' => rev_string s' (String c acc)
  end.

Definition strip_while (p : ascii -> bool) (s : string) : string :=
  rev_string (lstrip_while p (rev_string (lstrip_while p s) EmptyString)) EmptyString.

Fixpoint mem_char (c : ascii) (chars : string) : bool :=
  match chars with
  | EmptyString => false
  | String d chars' => Ascii.eqb c d || mem_char c chars'
  end.

Fixpoint digits_value (s : string) (acc : Z) : option Z :=
  match s with
  | EmptyString => Some acc
  | String c s' =>
      if is_digit c then digits_value s' (10 * acc + digit c) else None
  end.

(** [int] on an optional sign and decimal digits. *)
Definition ascii_int (s : string) : option Z :=
  match s with
  | EmptyString => None
  | String c s' =>
      if Ascii.eqb c "-" then
        match s' with
        | EmptyString => None
        | _ => option_map Z.opp (digits_value s' 0)
        end
      else if Ascii.eqb c "+" then
        match s' with
        | EmptyString => None
        | _ => digits_value s' 0
        end
      else digits_value s 0
  end.

Definition ascii_text : py_text :=
  mkPyText (strip_while is_space)
           (fun s chars => lstrip_while (fun c => mem_char c chars) s)
           ascii_int.

(** A service that always answers with the same text. *)
Definition canned (text : string) : service := mkService true (fun _ => Content text).

(** No API key. *)
Definition no_service : service := mkService false (fun _ => Failure "RuntimeError").

(** A store whose only record is completed. *)
Definition done_world : world :=
  mkWorld (Array [set_status "complete" task1]) [] [].

(** ** Well-formed collections *)

(** The invariants of a record: a positive id, a priority in 1..5, one of
    the two statuses, and a due date that is absent, empty or a date. *)
Definition record_ok (t : Task) : Prop :=
  1 <= t_id t /\
  1 <= t_priority t <= 5 /\
  (t_status t = "pending" \/ t_status t = "complete") /\
  match t_due_date t with
  | Some d => d = "" \/ strptime_ymd d <> None
  | None => True
  end.

Definition well_formed (tasks : list Task) : Prop :=
  NoDup (ids tasks) /\ Forall record_ok tasks.

(** The order of every [sort_mode] but "due": by priority, then by the due
    date text, where a record without one counts as "9999-12-31". *)
Definition priority_order (a b : Task) : Prop :=
  t_priority a < t_priority b \/
  (t_priority a = t_priority b /\
   ((due_or_max a <? due_or_max b)%string = true \/ due_or_max a = due_or_max b)).

(** [t] and [u] have the same sort keys. *)
Definition same_rank (t u : Task) : bool :=
  (due_or_max t =? due_or_max u)%string && (t_priority t =? t_priority u).

(** The lower-cased query occurs in the lower-cased title, description or
    summary. *)
Definition mentions (query : string) (t : Task) : bool :=
  PyStr.contains (PyStr.lower query) (PyStr.lower (t_title t)) ||
  PyStr.contains (PyStr.lower query) (PyStr.lower (t_description t)) ||
  PyStr.contains (PyStr.lower query) (PyStr.lower (t_summary t)).

(** ** Facts about the store *)

Lemma load_returns (w : world) : _load w = (Returned (collection w), w).
Proof. unfold collection, _load. destruct (disk w); reflexivity. Qed.

Lemma bind_load {A : Type} (k : list Task -> IO A) (w : world) :
  (tasks <- _load ;; k tasks) w = k (collection w) w.
Proof. unfold bind. now rewrite load_returns. Qed.

Lemma collection_saved (tasks : list Task) (w : world) :
  collection (saved tasks w) = tasks.
Proof. reflexivity. Qed.

Lemma save_healthy (tasks : list Task) (w : world) :
  healthy w -> _save tasks w = (Returned tt, saved tasks w).
Proof.
  unfold healthy, _save, saved. destruct (io_script w) as [|e script]; simpl.
  - reflexivity.
  - intros H. apply Forall_inv in H. now subst e.
Qed.

Lemma saved_healthy (tasks : list Task) (w : world) :
  healthy w -> healthy (saved tasks w).
Proof.
  unfold healthy, saved; simpl. destruct (io_script w) as [|e script]; simpl.
  - trivial.
  - apply Forall_inv_tail.
Qed.


Lemma save_then_ret {A : Type} (a : A) (tasks : list Task) (w : world) :
  (_save tasks ;;; ret a) w =
  (match fst (_save tasks w) with
   | Returned _ => Returned a
   | Raised e => Raised e
   end, snd (_save tasks w)).
Proof. unfold bind, ret. destruct (_save tasks w) as [[[]|e] w']; reflexivity. Qed.

Lemma save_then_ret_healthy {A : Type} (a : A) (tasks : list Task) (w : world) :
  healthy w -> (_save tasks ;;; ret a) w = (Returned a, saved tasks w).
Proof. intros H. now rewrite save_then_ret, (save_healthy tasks w H). Qed.

(** ** Facts about the helpers *)

Lemma max_id_fold_ge (rest : list Task) (m : Z) :
  m <= fold_left (fun m u => Z.max m (t_id u)) rest m /\
  Forall (fun u => t_id u <= fold_left (fun m u => Z.max m (t_id u)) rest m) rest.
Proof.
  revert m; induction rest as [|u rest IH]; intros m; simpl.
  - split; [lia | constructor].
  - destruct (IH (Z.max m (t_id u))) as [Hm Hall]. split; [lia |].
    constructor; [lia | exact Hall].
Qed.

Lemma max_id_upper_bound (tasks : list Task) :
  Forall (fun u => t_id u <= max_id tasks) tasks.
Proof.
  destruct tasks as [|t rest]; [constructor |].
  unfold max_id. destruct (max_id_fold_ge rest (t_id t)) as [Hm Hall].
  constructor; assumption.
Qed.

Lemma update_first_absent (task_id : Z) (f : Task -> Task) (tasks : list Task) :
  update_first task_id f tasks = None <-> ~ In task_id (ids tasks).
Proof.
  induction tasks as [|t rest IH]; simpl.
  - split; [intros _ [] | reflexivity].
  - destruct (Z.eqb_spec (t_id t) task_id) as [E|N].
    + split; [discriminate | intros H; exfalso; apply H; now left].
    + destruct (update_first task_id f rest); simpl.
      * split; [discriminate |].
        intros H; exfalso. destruct IH as [_ IH].
        assert (Hn : ~ In task_id (ids rest)) by (intros Hin; apply H; now right).
        specialize (IH Hn). discriminate.
      * split; [| reflexivity]. intros _ [E|Hin]; [contradiction |].
        destruct IH as [IH _]. now apply IH.
Qed.

Lemma update_first_present (task_id : Z) (f : Task -> Task) (tasks tasks' : list Task) :
  update_first task_id f tasks = Some tasks' ->
  exists l1 t l2,
    tasks = l1 ++ t :: l2 /\ t_id t = task_id /\ ~ In task_id (ids l1) /\
    tasks' = l1 ++ f t :: l2.
Proof.
  revert tasks'; induction tasks as [|t rest IH]; simpl; intros tasks' H.
  - discriminate.
  - destruct (Z.eqb_spec (t_id t) task_id) as [E|N].
    + injection H as <-. exists [], t, rest. repeat split; auto.
    + destruct (update_first task_id f rest) as [r|] eqn:Hr; [| discriminate].
      simpl in H. injection H as <-.
      destruct (IH r eq_refl) as (l1 & u & l2 & -> & Hu & Hn & ->).
      exists (t :: l1), u, l2. repeat split; auto.
      simpl. intros [E|Hin]; [contradiction | now apply Hn].
Qed.

Lemma update_first_In (task_id : Z) (f : Task -> Task) (tasks : list Task) :
  In task_id (ids tasks) -> exists tasks', update_first task_id f tasks = Some tasks'.
Proof.
  intros Hin. destruct (update_first task_id f tasks) as [r|] eqn:E.
  - now exists r.
  - apply update_first_absent in E. contradiction.
Qed.

Lemma update_first_at (task_id : Z) (f : Task -> Task) (l1 l2 : list Task) (t : Task) :
  ~ In task_id (ids l1) -> t_id t = task_id ->
  update_first task_id f (l1 ++ t :: l2) = Some (l1 ++ f t :: l2).
Proof.
  intros Hn Ht. induction l1 as [|u l1 IH]; simpl.
  - now rewrite Ht, Z.eqb_refl.
  - destruct (Z.eqb_spec (t_id u) task_id) as [E|N].
    + exfalso; apply Hn; now left.
    + rewrite IH; [reflexivity |]. intros H; apply Hn; now right.
Qed.

Lemma lookup_first (task_id : Z) (l1 l2 : list Task) (t : Task) :
  ~ In task_id (ids l1) -> t_id t = task_id ->
  lookup task_id (l1 ++ t :: l2) = Some t.
Proof.
  intros Hn Ht. induction l1 as [|u l1 IH]; simpl.
  - unfold lookup; simpl. now rewrite Ht, Z.eqb_refl.
  - unfold lookup; simpl. destruct (Z.eqb_spec (t_id u) task_id) as [E|N].
    + exfalso; apply Hn; now left.
    + apply IH. intros Hin; apply Hn; now right.
Qed.

(** The three loops that change the first record with an id. *)
Lemma run_update (task_id : Z) (f : Task -> Task) (w : world) :
  (tasks <- _load ;;
   match update_first task_id f tasks with
   | Some tasks' => _save tasks' ;;; ret true
   | None => ret false
   end) w =
  match update_first task_id f (collection w) with
  | Some tasks' => (_save tasks' ;;; ret true) w
  | None => (Returned false, w)
  end.
Proof. rewrite bind_load. destruct (update_first _ _ _); reflexivity. Qed.

(** ** Identifier assignment *)

Lemma add_task_healthy
    (now : string) (gen : string -> string -> string)
    (title description : string) (due_date : option string)
    (priority : Z) (summarize : bool) (w : world) :
  healthy w ->
  exists t,
    add_task now gen title description due_date priority summarize w =
      (Returned t, saved (collection w ++ [t]) w) /\
    t_id t = _next_id (collection w).
Proof.
  intros H. unfold add_task. rewrite bind_load.
  eexists. rewrite (save_then_ret_healthy _ _ w H).
  split; reflexivity.
Qed.

(** C1, as the code has it: on a disk that takes the write, [add_task]
    returns a record whose id is [max_id + 1] of the collection it loaded,
    which is strictly greater than the id of every record present in the
    store at that moment; the record is appended and the collection is
    saved. *)
Theorem add_task_id_above_present
    (now : string) (gen : string -> string -> string)
    (title description : string) (due_date : option string)
    (priority : Z) (summarize : bool) (w : world) :
  healthy w ->
  exists t,
    add_task now gen title description due_date priority summarize w =
      (Returned t, saved (collection w ++ [t]) w) /\
    t_id t = max_id (collection w) + 1 /\
    Forall (fun u => t_id u < t_id t) (collection w).
Proof.
  intros H.
  destruct (add_task_healthy now gen title description due_date priority
                             summarize w H) as (t & E & Hid).
  exists t. split; [exact E |]. unfold _next_id in Hid. split; [exact Hid |].
  pose proof (max_id_upper_bound (collection w)) as B.
  eapply Forall_impl; [| exact B]. simpl; intros u Hu; lia.
Qed.

Lemma add_task_id_above_present_witness :
  exists t,
    add_task clock no_summary "Next Task" "" None 3 false one_task_world =
      (Returned t, saved (collection one_task_world ++ [t]) one_task_world) /\
    t_id t = max_id (collection one_task_world) + 1 /\
    Forall (fun u => t_id u < t_id t) (collection one_task_world).
Proof.
  apply (add_task_id_above_present clock no_summary "Next Task" "" None 3 false
                                   one_task_world).
  constructor.
Defined.

(** C1, as stated, fails: after adding two records and deleting the second
    (the one with the maximum id), the next add assigns id 2 again. *)
Lemma add_task_reuses_deleted_max_id : ~ ids_never_reused.
Proof.
  intros H.
  assert (Ht : "third" <> "") by discriminate.
  assert (Hp : 1 <= 3 <= 5) by lia.
  pose proof (H [Add "first" 3; Add "second" 3; Delete 2] empty_world _ _ _
                "third" 3 _ Ht Hp eq_refl eq_refl) as F.
  inversion F as [|? ? _ F1]; subst.
  inversion F1 as [|? ? F2 _]; subst. vm_compute in F2. discriminate.
Qed.

(** ** Loading a file that holds no list *)

(** C3: when the file is missing, cannot be decoded (the empty file
    included) or decodes to a value that is not a list, [_load] returns the
    empty collection without raising and leaves the world alone, and an
    [add_task] whose write goes through assigns id 1. *)
Theorem load_unusable_file_is_empty (w : world) :
  unusable (disk w) ->
  _load w = (Returned [], w) /\
  (healthy w ->
   forall now gen title description due_date priority summarize,
   exists t,
     add_task now gen title description due_date priority summarize w =
       (Returned t, saved [t] w) /\
     t_id t = 1).
Proof.
  intros H.
  assert (C : collection w = []).
  { unfold collection, _load. destruct (disk w); simpl in H; try reflexivity.
    contradiction. }
  split; [rewrite load_returns, C; reflexivity |].
  intros Hw now gen title description due_date priority summarize.
  destruct (add_task_healthy now gen title description due_date
              priority summarize w Hw) as (t & E & Hid).
  exists t. rewrite C in E, Hid. split; [exact E | exact Hid].
Qed.

Lemma load_unusable_file_is_empty_witness :
  _load (mkWorld (Undecodable "{ invalid json }") [] []) =
    (Returned [], mkWorld (Undecodable "{ invalid json }") [] []) /\
  exists t,
    add_task clock no_summary "After Corruption" "" None 3 false
             (mkWorld (Undecodable "{ invalid json }") [] []) =
      (Returned t, saved [t] (mkWorld (Undecodable "{ invalid json }") [] [])) /\
    t_id t = 1.
Proof.
  destruct (load_unusable_file_is_empty
              (mkWorld (Undecodable "{ invalid json }") [] []) I) as [L A].
  split; [exact L |]. apply A. constructor.
Defined.

(** ** set_priority *)

(** C8: [set_priority] returns false and leaves the world as it was (same
    file, no call of [_save]) whenever the priority is outside 1..5 or no
    record has the id; otherwise it sets the priority of the first record
    with that id, saves the collection and, the write going through,
    returns true. *)
Theorem set_priority_spec (task_id priority : Z) (w : world) :
  (priority < 1 \/ priority > 5 \/ ~ In task_id (ids (collection w)) ->
   set_priority task_id priority w = (Returned false, w)) /\
  (1 <= priority <= 5 -> In task_id (ids (collection w)) -> healthy w ->
   exists l1 t l2,
     collection w = l1 ++ t :: l2 /\ t_id t = task_id /\ ~ In task_id (ids l1) /\
     t_priority (set_task_priority priority t) = priority /\
     set_priority task_id priority w =
       (Returned true, saved (l1 ++ set_task_priority priority t :: l2) w)).
Proof.
  unfold set_priority. split.
  - intros H.
    destruct ((priority <? 1) || (priority >? 5)) eqn:R; [reflexivity |].
    apply orb_false_elim in R. destruct R as [R1 R2].
    apply Z.ltb_ge in R1. rewrite Z.gtb_ltb in R2. apply Z.ltb_ge in R2.
    destruct H as [H | [H | H]]; try lia.
    rewrite run_update.
    apply (update_first_absent _ (set_task_priority priority)) in H.
    now rewrite H.
  - intros Hp Hin Hw.
    assert (R : (priority <? 1) || (priority >? 5) = false).
    { apply orb_false_intro; [apply Z.ltb_ge; lia |].
      rewrite Z.gtb_ltb. apply Z.ltb_ge; lia. }
    rewrite R, run_update.
    destruct (update_first_In task_id (set_task_priority priority) _ Hin)
      as [tasks' E].
    rewrite E.
    destruct (update_first_present _ _ _ _ E) as (l1 & t & l2 & Hc & Ht & Hn & ->).
    exists l1, t, l2. rewrite (save_then_ret_healthy _ _ w Hw).
    repeat split; auto.
Qed.

Lemma set_priority_spec_witness :
  set_priority 1 0 one_task_world = (Returned false, one_task_world) /\
  set_priority 1 6 one_task_world = (Returned false, one_task_world) /\
  set_priority 999 3 one_task_world = (Returned false, one_task_world) /\
  exists l1 t l2,
    collection one_task_world = l1 ++ t :: l2 /\ t_id t = 1 /\ ~ In 1 (ids l1) /\
    t_priority (set_task_priority 1 t) = 1 /\
    set_priority 1 1 one_task_world =
      (Returned true, saved (l1 ++ set_task_priority 1 t :: l2) one_task_world).
Proof.
  split; [| split; [| split]].
  - apply (proj1 (set_priority_spec 1 0 one_task_world)). left. lia.
  - apply (proj1 (set_priority_spec 1 6 one_task_world)). right; left. lia.
  - apply (proj1 (set_priority_spec 999 3 one_task_world)). right; right.
    simpl. intros [H | []]. discriminate.
  - apply (proj2 (set_priority_spec 1 1 one_task_world)); [lia | | constructor].
    simpl. left. reflexivity.
Defined.

(** ** complete_task *)

(** C9: when a record has the id and the writes go through, two calls of
    [complete_task] in a row both return true, the record with that id has
    status "complete" after each, and the second call leaves the
    collection as the first made it; when no record has the id,
    [complete_task] returns false. *)
Theorem complete_task_idempotent (task_id : Z) (w : world) :
  (In task_id (ids (collection w)) -> healthy w ->
   exists w1 w2,
     complete_task task_id w = (Returned true, w1) /\
     complete_task task_id w1 = (Returned true, w2) /\
     option_map t_status (lookup task_id (collection w1)) = Some "complete" /\
     option_map t_status (lookup task_id (collection w2)) = Some "complete" /\
     collection w2 = collection w1) /\
  (~ In task_id (ids (collection w)) ->
   complete_task task_id w = (Returned false, w)).
Proof.
  unfold complete_task. split.
  - intros Hin Hw. rewrite run_update.
    destruct (update_first_In task_id (set_status "complete") _ Hin) as [tasks' E].
    rewrite E.
    destruct (update_first_present _ _ _ _ E) as (l1 & t & l2 & Hc & Ht & Hn & ->).
    remember (l1 ++ set_status "complete" t :: l2) as tasks1 eqn:T1.
    assert (E2 : update_first task_id (set_status "complete") tasks1 = Some tasks1).
    { subst tasks1.
      rewrite (update_first_at task_id _ l1 l2 (set_status "complete" t) Hn Ht).
      reflexivity. }
    exists (saved tasks1 w), (saved tasks1 (saved tasks1 w)).
    rewrite (save_then_ret_healthy _ _ w Hw).
    rewrite run_update, collection_saved, E2.
    rewrite (save_then_ret_healthy _ _ _ (saved_healthy tasks1 w Hw)).
    rewrite !collection_saved. subst tasks1.
    rewrite (lookup_first task_id l1 l2 (set_status "complete" t) Hn Ht).
    repeat split; reflexivity.
  - intros Hn. rewrite run_update.
    apply (update_first_absent _ (set_status "complete")) in Hn.
    now rewrite Hn.
Qed.

Lemma complete_task_idempotent_witness :
  (exists w1 w2,
     complete_task 1 one_task_world = (Returned true, w1) /\
     complete_task 1 w1 = (Returned true, w2) /\
     option_map t_status (lookup 1 (collection w1)) = Some "complete" /\
     option_map t_status (lookup 1 (collection w2)) = Some "complete" /\
     collection w2 = collection w1) /\
  complete_task 999 one_task_world = (Returned false, one_task_world).
Proof.
  split.
  - apply (proj1 (complete_task_idempotent 1 one_task_world)); [| constructor].
    simpl. left. reflexivity.
  - apply (proj2 (complete_task_idempotent 999 one_task_world)).
    simpl. intros [H | []]. discriminate.
Defined.

(** ** Failed mutations *)

Lemma save_then_true_not_false (tasks : list Task) (w : world) :
  fst ((_save tasks ;;; ret true) w) <> Returned false.
Proof.
  rewrite save_then_ret. cbn [fst].
  destruct (fst (_save tasks w)); discriminate.
Qed.

(** C10: whenever [complete_task], [delete_task], [edit_task] or
    [set_priority] returns false, the world after the call is the world
    before it: [_save] was not called and the file is untouched. *)
Theorem failed_mutation_is_noop (task_id priority : Z)
    (title description due_date : option string) (w : world) :
  (fst (complete_task task_id w) = Returned false ->
   snd (complete_task task_id w) = w) /\
  (fst (delete_task task_id w) = Returned false ->
   snd (delete_task task_id w) = w) /\
  (fst (edit_task task_id title description due_date w) = Returned false ->
   snd (edit_task task_id title description due_date w) = w) /\
  (fst (set_priority task_id priority w) = Returned false ->
   snd (set_priority task_id priority w) = w).
Proof.
  split; [| split; [| split]].
  - unfold complete_task. rewrite run_update.
    destruct (update_first _ _ _); [| reflexivity].
    intros H. now apply save_then_true_not_false in H.
  - unfold delete_task. rewrite bind_load.
    destruct (negb _); [| reflexivity].
    intros H. now apply save_then_true_not_false in H.
  - unfold edit_task. rewrite run_update.
    destruct (update_first _ _ _); [| reflexivity].
    intros H. now apply save_then_true_not_false in H.
  - unfold set_priority.
    destruct ((priority <? 1) || (priority >? 5)); [reflexivity |].
    rewrite run_update.
    destruct (update_first _ _ _); [| reflexivity].
    intros H. now apply save_then_true_not_false in H.
Qed.

Lemma failed_mutation_is_noop_witness :
  snd (complete_task 999 one_task_world) = one_task_world /\
  snd (delete_task 999 one_task_world) = one_task_world /\
  snd (edit_task 999 (Some "Nope") None None one_task_world) = one_task_world /\
  snd (set_priority 1 6 one_task_world) = one_task_world.
Proof.
  pose proof (failed_mutation_is_noop 999 3 (Some "Nope") None None one_task_world)
    as (Hc & Hd & He & _).
  pose proof (failed_mutation_is_noop 1 6 None None None one_task_world)
    as (_ & _ & _ & Hs).
  split; [apply Hc; reflexivity |].
  split; [apply Hd; reflexivity |].
  split; [apply He; reflexivity | apply Hs; reflexivity].
Defined.

(** ** search_tasks *)

Lemma search_step_tiers (q : string) (pm om : list Task) (t : Task) :
  search_step (PyStr.lower q) (pm, om) t =
  if tier1 q t then (pm ++ [t], om)
  else if tier2 q t then (pm, om ++ [t]) else (pm, om).
Proof.
  unfold search_step, tier2, tier1.
  destruct (PyStr.startswith (PyStr.lower (t_title t)) (PyStr.lower q)); reflexivity.
Qed.

Lemma tiers_disjoint (q : string) (t : Task) : tier1 q t && tier2 q t = false.
Proof. unfold tier2. destruct (tier1 q t); reflexivity. Qed.

Lemma search_loop (q : string) (tasks prefix_matches other_matches : list Task) :
  fold_left (search_step (PyStr.lower q)) tasks (prefix_matches, other_matches) =
  (prefix_matches ++ filter (tier1 q) tasks, other_matches ++ filter (tier2 q) tasks).
Proof.
  revert prefix_matches other_matches.
  induction tasks as [|t tasks IH]; intros pm om; cbn [fold_left filter].
  - now rewrite !app_nil_r.
  - rewrite search_step_tiers. pose proof (tiers_disjoint q t) as D.
    destruct (tier1 q t); simpl in D.
    + rewrite D, IH, <- app_assoc. reflexivity.
    + destruct (tier2 q t); rewrite IH; [rewrite <- app_assoc |]; reflexivity.
Qed.

Lemma disjoint_filters_perm (p q : Task -> bool) (l : list Task) :
  (forall t, p t && q t = false) ->
  Permutation (filter p l ++ filter q l) (filter (fun t => p t || q t) l).
Proof.
  intros D. induction l as [|t l IH]; simpl; [constructor |].
  specialize (D t). destruct (p t); simpl in *.
  - rewrite D. now constructor.
  - destruct (q t); [| exact IH].
    symmetry. apply Permutation_cons_app. now symmetry.
Qed.

Lemma prefix_empty (s : string) : String.prefix "" s = true.
Proof. destruct s; reflexivity. Qed.

(** C4: [search_tasks] returns the Tier 1 records in collection order,
    followed by the Tier 2 records (those not in Tier 1 that contain the
    query) in collection order, and leaves the world alone; no record is in
    both tiers, so every position of the collection that matches is
    returned exactly once; for the empty query the result is the whole
    collection in its order. *)
Theorem search_tasks_two_tiers (query : string) (w : world) :
  search_tasks query w =
    (Returned (filter (tier1 query) (collection w) ++
               filter (tier2 query) (collection w)), w) /\
  Permutation (filter (tier1 query) (collection w) ++
               filter (tier2 query) (collection w))
              (filter (fun t => tier1 query t || tier2 query t) (collection w)) /\
  (forall t, tier1 query t && tier2 query t = false) /\
  search_tasks "" w = (Returned (collection w), w).
Proof.
  assert (R : forall q, search_tasks q w =
                (Returned (filter (tier1 q) (collection w) ++
                           filter (tier2 q) (collection w)), w)).
  { intros q. unfold search_tasks. rewrite bind_load, search_loop. reflexivity. }
  split; [apply R |]. split; [| split; [apply tiers_disjoint |]].
  - apply disjoint_filters_perm. apply tiers_disjoint.
  - rewrite R. do 2 f_equal.
    assert (T1 : forall t, tier1 "" t = true)
      by (intros t; unfold tier1, PyStr.startswith; apply prefix_empty).
    assert (F1 : forall l, filter (tier1 "") l = l).
    { induction l as [|t l IH]; simpl; [reflexivity |]. now rewrite T1, IH. }
    assert (F2 : forall l, filter (tier2 "") l = []).
    { induction l as [|t l IH]; simpl; [reflexivity |].
      unfold tier2 at 1. now rewrite T1. }
    rewrite F1, F2. apply app_nil_r.
Qed.

(** ** get_overview *)

Lemma strptime_empty : strptime_ymd "" = None.
Proof. reflexivity. Qed.

Lemma filter_twice {A : Type} (p q : A -> bool) (l : list A) :
  filter q (filter p l) = filter (fun x => p x && q x) l.
Proof.
  induction l as [|x l IH]; simpl; [reflexivity |].
  destruct (p x); simpl; [destruct (q x) |]; now rewrite IH.
Qed.

Lemma overdue_loop (today : date) (tasks : list Task) (n : Z) :
  fold_left (overdue_step today) (filter is_pending tasks) n =
  n + len (filter (is_overdue today) tasks).
Proof.
  unfold len. revert n. induction tasks as [|t tasks IH]; intros n; simpl.
  - lia.
  - unfold is_overdue at 1. destruct (is_pending t); simpl; [| apply IH].
    rewrite IH. unfold overdue_step.
    destruct (t_due_date t) as [s|]; simpl; [| reflexivity].
    unfold PyStr.truthy. destruct (String.eqb_spec s "") as [->|N]; simpl.
    + reflexivity.
    + destruct (strptime_ymd s) as [due|]; [| reflexivity].
      destruct (date_ltb due today); [| reflexivity].
      cbn [List.length]. rewrite Nat2Z.inj_succ. lia.
Qed.

(** C6: [get_overview] reports the size of the collection, the number of
    pending records, the number of pending records of priority at most 2,
    and the number of pending records whose due date is present, parses
    and is strictly before today; a record whose due date is absent or
    does not parse is never overdue.  The world is left alone. *)
Theorem get_overview_counts (today : date) (w : world) :
  get_overview today w =
    (Returned
       (mkOverview (len (collection w))
                   (len (filter is_pending (collection w)))
                   (len (filter is_high_priority (collection w)))
                   (len (filter (is_overdue today) (collection w)))), w) /\
  (forall t, t_due_date t = None -> is_overdue today t = false) /\
  (forall t s, t_due_date t = Some s -> strptime_ymd s = None ->
               is_overdue today t = false).
Proof.
  split; [| split].
  - unfold get_overview. rewrite bind_load.
    unfold ret. do 3 f_equal.
    + rewrite filter_twice. reflexivity.
    + change (fun t => (t_status t =? "pending")%string) with is_pending.
      rewrite overdue_loop. lia.
  - intros t H. unfold is_overdue. rewrite H. apply andb_false_r.
  - intros t s H P. unfold is_overdue. rewrite H, P. apply andb_false_r.
Qed.

Lemma get_overview_counts_witness :
  is_overdue (mkDate 2025 11 22) urgent_task = false /\
  is_overdue (mkDate 2025 11 22)
             (set_due_date (Some "invalid") urgent_task) = false.
Proof.
  pose proof (get_overview_counts (mkDate 2025 11 22) overview_world)
    as (_ & Habsent & Hbad).
  split; [apply Habsent; reflexivity |].
  apply (Hbad _ "invalid"); reflexivity.
Defined.

(** ** edit_task *)

Lemma edit_fields_frame (title description due_date : option string) (t : Task) :
  let t' := edit_fields title description due_date t in
  t_id t' = t_id t /\ t_created_at t' = t_created_at t /\
  t_priority t' = t_priority t /\ t_status t' = t_status t /\
  t_summary t' = t_summary t /\
  t_title t' = match title with Some v => v | None => t_title t end /\
  t_description t' = match description with Some v => v | None => t_description t end.
Proof.
  unfold edit_fields.
  destruct title, description, due_date as [d|]; simpl;
    try (destruct (PyStr.truthy d); [destruct (strptime_ymd d) |]);
    simpl; repeat split; reflexivity.
Qed.

Lemma edit_fields_due_date (title description due_date : option string) (t : Task) :
  t_due_date (edit_fields title description due_date t) =
  match due_date with
  | None => t_due_date t
  | Some d =>
      if (d =? "")%string then None
      else match strptime_ymd d with
           | Some _ => Some d
           | None => t_due_date t
           end
  end.
Proof.
  unfold edit_fields, PyStr.truthy.
  destruct title, description, due_date as [d|]; simpl; try reflexivity;
    destruct (d =? "")%string; simpl; try reflexivity;
    destruct (strptime_ymd d); reflexivity.
Qed.

(** C7, as the code has it: when a record has the id, [edit_task] changes
    the first such record and nothing else, saves and, the write going
    through, returns true.  In that record the title and the description
    are replaced exactly when supplied; the due date is kept when none is
    supplied, cleared when the empty text is supplied, replaced when the
    supplied text is a date, and kept when the supplied text is not empty
    and not a date; id, creation time, priority, status and summary are
    kept.  [edit_task] returns false exactly when no record has the id. *)
Theorem edit_task_spec (task_id : Z) (title description due_date : option string)
    (w : world) :
  (In task_id (ids (collection w)) -> healthy w ->
   exists l1 t l2,
     collection w = l1 ++ t :: l2 /\ t_id t = task_id /\ ~ In task_id (ids l1) /\
     let t' := edit_fields title description due_date t in
     edit_task task_id title description due_date w =
       (Returned true, saved (l1 ++ t' :: l2) w) /\
     t_title t' = match title with Some v => v | None => t_title t end /\
     t_description t' =
       match description with Some v => v | None => t_description t end /\
     (due_date = None -> t_due_date t' = t_due_date t) /\
     (due_date = Some "" -> t_due_date t' = None) /\
     (forall d, due_date = Some d -> strptime_ymd d <> None ->
                t_due_date t' = Some d) /\
     (forall d, due_date = Some d -> d <> "" -> strptime_ymd d = None ->
                t_due_date t' = t_due_date t) /\
     t_id t' = t_id t /\ t_created_at t' = t_created_at t /\
     t_priority t' = t_priority t /\ t_status t' = t_status t /\
     t_summary t' = t_summary t) /\
  (fst (edit_task task_id title description due_date w) = Returned false <->
   ~ In task_id (ids (collection w))).
Proof.
  unfold edit_task. rewrite run_update. split.
  - intros Hin Hw.
    destruct (update_first_In task_id (edit_fields title description due_date) _ Hin)
      as [tasks' E].
    rewrite E.
    destruct (update_first_present _ _ _ _ E) as (l1 & t & l2 & Hc & Ht & Hn & ->).
    exists l1, t, l2. rewrite (save_then_ret_healthy _ _ w Hw).
    destruct (edit_fields_frame title description due_date t)
      as (F1 & F2 & F3 & F4 & F5 & F6 & F7).
    pose proof (edit_fields_due_date title description due_date t) as D.
    cbv zeta. repeat (split; [assumption || reflexivity || idtac |]); try assumption.
    + intros ->. exact D.
    + intros ->. exact D.
    + intros d -> P. rewrite D.
      destruct (String.eqb_spec d "") as [->|_]; [now rewrite strptime_empty in P |].
      destruct (strptime_ymd d); [reflexivity | contradiction].
    + intros d -> N P. rewrite D, P.
      destruct (String.eqb_spec d ""); [contradiction | reflexivity].
  - destruct (update_first task_id _ (collection w)) eqn:E.
    + split.
      * intros H. now apply save_then_true_not_false in H.
      * intros Hn.
        apply (update_first_absent _ (edit_fields title description due_date)) in Hn.
        congruence.
    + split; [| reflexivity]. intros _.
      now apply update_first_absent in E.
Qed.

Lemma edit_task_spec_witness :
  (exists w',
     edit_task 1 (Some "Updated") None (Some "invalid") one_task_world =
       (Returned true, w')) /\
  (fst (edit_task 999 (Some "Nope") None None one_task_world) = Returned false <->
   ~ In 999 (ids (collection one_task_world))).
Proof.
  split.
  - destruct (proj1 (edit_task_spec 1 (Some "Updated") None (Some "invalid")
                                    one_task_world))
      as (l1 & t & l2 & _ & _ & _ & E & _).
    + simpl. left. reflexivity.
    + constructor.
    + cbv zeta in E. eexists. exact E.
  - apply (proj2 (edit_task_spec 999 (Some "Nope") None None one_task_world)).
Defined.

(** C7, as stated, fails: the empty text is not a date, yet editing with it
    as the due date clears the due date of the record. *)
Lemma edit_task_empty_due_date_clears : ~ invalid_due_date_is_ignored.
Proof.
  intros H.
  pose proof (H 1 None None "" one_task_world _ task1 eq_refl eq_refl eq_refl) as F.
  vm_compute in F. discriminate.
Qed.

(** ** Sorting *)

Section SortedFacts.
Context {A K : Type} (ltb : K -> K -> bool) (key : A -> K).

Hypothesis ltb_asym : forall a b, ltb a b = true -> ltb b a = false.
Hypothesis ltb_negtrans :
  forall a b c, ltb b a = false -> ltb c b = false -> ltb c a = false.

Lemma insert_perm (x : A) (l : list A) :
  Permutation (insert ltb key x l) (x :: l).
Proof.
  induction l as [|y l IH]; simpl; [reflexivity |].
  destruct (ltb (key y) (key x)); [| reflexivity].
  rewrite IH. apply perm_swap.
Qed.

Lemma sorted_perm (l : list A) : Permutation (sorted ltb key l) l.
Proof.
  induction l as [|x l IH]; simpl; [constructor |].
  rewrite insert_perm. now constructor.
Qed.

Lemma insert_sorted (x : A) (l : list A) :
  StronglySorted (not_after ltb key) l ->
  StronglySorted (not_after ltb key) (insert ltb key x l).
Proof.
  induction 1 as [|y l Hs IH Hy]; simpl.
  - repeat constructor.
  - destruct (ltb (key y) (key x)) eqn:E.
    + constructor; [exact IH |].
      apply (Permutation_Forall (Permutation_sym (insert_perm x l))).
      constructor; [| exact Hy]. unfold not_after. now apply ltb_asym.
    + constructor; [now constructor |].
      constructor; [exact E |].
      eapply Forall_impl; [| exact Hy]. unfold not_after. intros z Hz.
      now apply (ltb_negtrans (key x) (key y) (key z)).
Qed.

Lemma sorted_sorted (l : list A) :
  StronglySorted (not_after ltb key) (sorted ltb key l).
Proof.
  induction l as [|x l IH]; simpl; [constructor | now apply insert_sorted].
Qed.

End SortedFacts.

(** The order of Python strings, on [String.compare]. *)

Lemma ascii_compare_refl (a : ascii) : Ascii.compare a a = Eq.
Proof. unfold Ascii.compare. apply N.compare_refl. Qed.

Lemma ascii_compare_lt_trans (a b c : ascii) :
  Ascii.compare a b = Lt -> Ascii.compare b c = Lt -> Ascii.compare a c = Lt.
Proof.
  unfold Ascii.compare. rewrite !N.compare_lt_iff. apply N.lt_trans.
Qed.

Lemma str_compare_refl (s : string) : String.compare s s = Eq.
Proof.
  induction s as [|a s IH]; simpl; [reflexivity |].
  now rewrite ascii_compare_refl.
Qed.

Lemma str_compare_lt_trans (a b c : string) :
  String.compare a b = Lt -> String.compare b c = Lt -> String.compare a c = Lt.
Proof.
  revert b c. induction a as [|x a IH]; intros [|y b] [|z c]; simpl;
    try congruence.
  destruct (Ascii.compare x y) eqn:Hxy; try discriminate;
    destruct (Ascii.compare y z) eqn:Hyz; try discriminate.
  - apply Ascii.compare_eq_iff in Hxy, Hyz. subst.
    rewrite ascii_compare_refl. apply IH.
  - apply Ascii.compare_eq_iff in Hxy. subst. now rewrite Hyz.
  - apply Ascii.compare_eq_iff in Hyz. subst. now rewrite Hxy.
  - now rewrite (ascii_compare_lt_trans x y z Hxy Hyz).
Qed.

Lemma str_ltb_irrefl (s : string) : (s <? s)%string = false.
Proof. unfold String.ltb. now rewrite str_compare_refl. Qed.

Lemma str_ltb_asym (a b : string) :
  (a <? b)%string = true -> (b <? a)%string = false.
Proof.
  unfold String.ltb. rewrite (String.compare_antisym a b).
  destruct (String.compare b a); simpl; congruence.
Qed.

Lemma str_ltb_trans (a b c : string) :
  (a <? b)%string = true -> (b <? c)%string = true -> (a <? c)%string = true.
Proof.
  unfold String.ltb. intros H1 H2.
  destruct (String.compare a b) eqn:E1; try discriminate.
  destruct (String.compare b c) eqn:E2; try discriminate.
  now rewrite (str_compare_lt_trans a b c E1 E2).
Qed.

Lemma str_ltb_total (a b : string) :
  (a <? b)%string = false -> (b <? a)%string = false -> a = b.
Proof.
  unfold String.ltb. rewrite (String.compare_antisym a b).
  destruct (String.compare b a) eqn:E; simpl; try discriminate.
  intros _ _. symmetry. now apply String.compare_eq_iff.
Qed.

Lemma due_key_ltb_false (a b : string * Z) :
  due_key_ltb b a = false <->
  (fst a <? fst b)%string = true \/ (fst a = fst b /\ snd a <= snd b).
Proof.
  unfold due_key_ltb, tuple_ltb. destruct a as [s1 p1], b as [s2 p2]; simpl.
  destruct (String.eqb_spec s2 s1) as [->|N].
  - rewrite str_ltb_irrefl, Z.ltb_ge. split.
    + intros H. right. now split.
    + intros [H | [_ H]]; [discriminate | exact H].
  - split.
    + intros H. left. destruct (s1 <? s2)%string eqn:E; [reflexivity |].
      exfalso. apply N. symmetry. now apply str_ltb_total.
    + intros [H | [H _]]; [now apply str_ltb_asym | congruence].
Qed.

Lemma due_key_ltb_asym (a b : string * Z) :
  due_key_ltb a b = true -> due_key_ltb b a = false.
Proof.
  intros H. apply due_key_ltb_false.
  unfold due_key_ltb, tuple_ltb in H. destruct a as [s1 p1], b as [s2 p2].
  simpl in *. destruct (String.eqb_spec s1 s2) as [->|N].
  - right. split; [reflexivity |]. apply Z.ltb_lt in H. lia.
  - now left.
Qed.

Lemma due_key_ltb_negtrans (a b c : string * Z) :
  due_key_ltb b a = false -> due_key_ltb c b = false -> due_key_ltb c a = false.
Proof.
  rewrite !due_key_ltb_false.
  intros [H1 | [E1 L1]] [H2 | [E2 L2]].
  - left. now apply (str_ltb_trans _ (fst b)).
  - left. now rewrite <- E2.
  - left. now rewrite E1.
  - right. split; [congruence | lia].
Qed.

Lemma not_after_due_order (a b : Task) :
  not_after due_key_ltb sort_key_due a b <-> due_order a b.
Proof. unfold not_after, due_order. now rewrite due_key_ltb_false. Qed.

Lemma strongly_sorted_weaken {A : Type} (R Q : A -> A -> Prop) (l : list A) :
  (forall a b, R a b -> Q a b) -> StronglySorted R l -> StronglySorted Q l.
Proof.
  intros W. induction 1 as [|a l Hs IH Ha]; constructor; [exact IH |].
  eapply Forall_impl; [| exact Ha]. intros b. apply W.
Qed.

Lemma sorted_precedes {R : Task -> Task -> Prop} (l : list Task) (x y : Task) :
  StronglySorted R l -> precedes l x y -> R x y.
Proof.
  intros Hs (l1 & l2 & l3 & ->).
  induction l1 as [|u l1 IH]; simpl in Hs.
  - apply StronglySorted_inv in Hs. destruct Hs as [_ Hall].
    rewrite Forall_forall in Hall. apply Hall.
    apply in_or_app. right. now left.
  - apply StronglySorted_inv in Hs. now apply IH.
Qed.

Lemma due_or_max_dateless (t : Task) :
  PyStr.truthy_opt (t_due_date t) = false -> due_or_max t = "9999-12-31".
Proof.
  unfold due_or_max, PyStr.or_else, PyStr.truthy_opt.
  destruct (t_due_date t) as [s|]; [| reflexivity]. now intros ->.
Qed.

Lemma due_or_max_dated (t : Task) (d : string) :
  t_due_date t = Some d -> d <> "" -> due_or_max t = d.
Proof.
  unfold due_or_max, PyStr.or_else, PyStr.truthy. intros -> N.
  destruct (String.eqb_spec d ""); [contradiction | reflexivity].
Qed.

Lemma filter_all {A : Type} (l : list A) : filter (fun _ => true) l = l.
Proof. induction l as [|x l IH]; simpl; congruence. Qed.

(** C5, as the code has it: under [sort_mode == "due"] the output is the
    records selected by the filter, in ascending order of the key (due
    date text, priority), where the texts are compared as strings and a
    record without a due date (absent or empty) counts as "9999-12-31".
    Hence a record without a due date never comes before a record whose
    due date text is below "9999-12-31", whatever the priorities. *)
Theorem list_tasks_due_order (filter_mode : string) (w : world) :
  exists out,
    list_tasks filter_mode "due" w = (Returned out, w) /\
    Permutation out (filter (selected filter_mode) (collection w)) /\
    StronglySorted due_order out /\
    (forall x y d,
       PyStr.truthy_opt (t_due_date x) = false ->
       t_due_date y = Some d -> d <> "" -> (d <? "9999-12-31")%string = true ->
       ~ precedes out x y).
Proof.
  exists (sorted due_key_ltb sort_key_due
                 (filter (selected filter_mode) (collection w))).
  assert (S : StronglySorted due_order
                (sorted due_key_ltb sort_key_due
                        (filter (selected filter_mode) (collection w)))).
  { apply (strongly_sorted_weaken (not_after due_key_ltb sort_key_due)).
    - intros a b. apply not_after_due_order.
    - apply (sorted_sorted due_key_ltb sort_key_due
                           due_key_ltb_asym due_key_ltb_negtrans). }
  assert (L : forall x y d,
             PyStr.truthy_opt (t_due_date x) = false ->
             t_due_date y = Some d -> d <> "" ->
             (d <? "9999-12-31")%string = true ->
             ~ precedes (sorted due_key_ltb sort_key_due
                           (filter (selected filter_mode) (collection w))) x y).
  { intros x y d Hx Hy Hd Hlt Hp.
    pose proof (sorted_precedes _ x y S Hp) as [H | [H _]];
      rewrite (due_or_max_dateless x Hx), (due_or_max_dated y d Hy Hd) in H.
    - apply str_ltb_asym in Hlt. congruence.
    - subst d. rewrite str_ltb_irrefl in Hlt. discriminate. }
  split; [| split; [apply sorted_perm | split; [exact S | exact L]]].
  unfold list_tasks. rewrite bind_load. unfold ret.
  change ("due" =? "due")%string with true. cbv iota.
  do 3 f_equal. unfold selected.
  destruct (filter_mode =? "pending")%string; [reflexivity |].
  destruct (filter_mode =? "completed")%string; [reflexivity |].
  symmetry. apply filter_all.
Qed.

Lemma list_tasks_due_order_witness :
  exists out,
    list_tasks "all" "due" mixed_world = (Returned out, mixed_world) /\
    out = [someday_task; urgent_task] /\
    ~ precedes out urgent_task someday_task.
Proof.
  destruct (list_tasks_due_order "all" mixed_world) as (out & E & _ & _ & L).
  exists out. split; [exact E |]. split.
  - vm_compute in E. now injection E as <-.
  - apply (L urgent_task someday_task "2025-12-01");
      [reflexivity | reflexivity | discriminate | reflexivity].
Defined.

(** C5, as stated, fails: a record due on 9999-12-31 has the key text that
    stands for "no due date", so the priorities decide and the urgent
    record without a due date comes first. *)
Lemma due_sort_dateless_before_dated : ~ dateless_always_last.
Proof.
  intros H.
  apply (H "all" far_future_world far_future_world
           [urgent_task; capsule_task] urgent_task capsule_task);
    [reflexivity | reflexivity | discriminate |].
  exists [], [], []. reflexivity.
Qed.

(** ** The tests of the repository, run on the model *)

Example search_prefix_priority :
  search_tasks "b" search_world =
    (Returned (map (fun i => nth i (collection search_world) task1) [0; 2; 1; 3]%nat),
     search_world) /\
  fst (search_tasks "B" search_world) = fst (search_tasks "b" search_world) /\
  fst (search_tasks "" search_world) = Returned (collection search_world) /\
  titles (collection search_world) =
    ["Brush teeth"; "Do laundry"; "Buy groceries"; "Remember birthday"].
Proof. repeat split; reflexivity. Qed.

Example overview_of_three :
  fst (get_overview (mkDate 2025 11 22) overview_world) =
  Returned (mkOverview 3 2 1 1).
Proof. reflexivity. Qed.

Example add_multiple_tasks_increments_id :
  fst (run_history [Add "First" 3; Add "Second" 3; Add "Third" 3] empty_world)
  = Returned [1; 2; 3].
Proof. reflexivity. Qed.

Example add_after_manual_high_id :
  option_map t_id
    (match fst (add_task clock no_summary "Next Task" "" None 3 false
                  (mkWorld (Array [mkTask 5 "Manual Task" "" clock None 3
                                          "pending" ""]) [] [])) with
     | Returned t => Some t
     | Raised _ => None
     end) = Some 6.
Proof. reflexivity. Qed.

Example edit_invalid_date_keeps_original :
  map t_due_date
      (collection (snd (edit_task 1 None None (Some "invalid") one_task_world)))
  = [Some "2025-12-01"].
Proof. reflexivity. Qed.

Example interrupted_save_loses_the_store :
  fst (complete_task 1 failing_disk_world) = Raised OSError /\
  collection (snd (complete_task 1 failing_disk_world)) = [].
Proof. split; reflexivity. Qed.

(** * Further properties of the store *)

(** ** What a save leaves behind *)

Lemma save_returned (tasks : list Task) (w : world) :
  fst (_save tasks w) = Returned tt -> collection (snd (_save tasks w)) = tasks.
Proof.
  unfold _save. destruct (io_script w) as [|[| |] script]; simpl;
    try discriminate; reflexivity.
Qed.

Lemma save_collection (tasks : list Task) (w : world) :
  collection (snd (_save tasks w)) = tasks \/
  collection (snd (_save tasks w)) = collection w \/
  collection (snd (_save tasks w)) = [].
Proof.
  unfold _save. destruct (io_script w) as [|[| |] script]; cbn [snd].
  - left. reflexivity.
  - left. reflexivity.
  - right. left. unfold collection, _load. cbn [disk].
    destruct (disk w); reflexivity.
  - right. right. reflexivity.
Qed.

Lemma save_then_ret_collection {A : Type} (a : A) (tasks : list Task) (w : world) :
  collection (snd ((_save tasks ;;; ret a) w)) = tasks \/
  collection (snd ((_save tasks ;;; ret a) w)) = collection w \/
  collection (snd ((_save tasks ;;; ret a) w)) = [].
Proof. rewrite save_then_ret. cbn [snd]. apply save_collection. Qed.

Lemma save_then_ret_returned {A : Type} (a b : A) (tasks : list Task) (w w' : world) :
  (_save tasks ;;; ret a) w = (Returned b, w') -> b = a /\ collection w' = tasks.
Proof.
  rewrite save_then_ret. destruct (fst (_save tasks w)) as [[]|e] eqn:E;
    [| discriminate].
  intros H. injection H as <- <-. split; [reflexivity |]. now apply save_returned.
Qed.

(** ** delete_task *)

Lemma filter_other_ids_same (task_id : Z) (tasks : list Task) :
  ~ In task_id (ids tasks) ->
  filter (fun t => negb (t_id t =? task_id)) tasks = tasks.
Proof.
  induction tasks as [|t rest IH]; simpl; intros H; [reflexivity |].
  destruct (Z.eqb_spec (t_id t) task_id) as [E|N]; simpl.
  - exfalso. apply H. now left.
  - rewrite IH; [reflexivity |]. intros Hin. apply H. now right.
Qed.

Lemma filter_other_ids_shorter (task_id : Z) (tasks : list Task) :
  In task_id (ids tasks) ->
  (List.length (filter (fun t => negb (t_id t =? task_id)%Z) tasks)
   < List.length tasks)%nat.
Proof.
  induction tasks as [|t rest IH]; simpl; intros H; [contradiction |].
  pose proof (filter_length_le (fun t => negb (t_id t =? task_id)) rest) as B.
  destruct (Z.eqb_spec (t_id t) task_id) as [E|N]; simpl.
  - lia.
  - destruct H as [H|H]; [contradiction |]. specialize (IH H). lia.
Qed.

Lemma filter_other_ids_absent (task_id : Z) (tasks : list Task) :
  ~ In task_id (ids (filter (fun t => negb (t_id t =? task_id)) tasks)).
Proof.
  unfold ids. rewrite in_map_iff. intros (t & E & Hin).
  apply filter_In in Hin. destruct Hin as [_ H].
  rewrite <- E, Z.eqb_refl in H. discriminate.
Qed.

Lemma lookup_filter_other (task_id other : Z) (tasks : list Task) :
  other <> task_id ->
  lookup other (filter (fun t => negb (t_id t =? task_id)) tasks) =
  lookup other tasks.
Proof.
  intros N. unfold lookup. induction tasks as [|t rest IH]; simpl; [reflexivity |].
  destruct (Z.eqb_spec (t_id t) task_id) as [E|D]; simpl.
  - destruct (Z.eqb_spec (t_id t) other) as [E'|_]; [congruence | exact IH].
  - destruct (t_id t =? other); [reflexivity | exact IH].
Qed.

Lemma delete_task_run (task_id : Z) (w : world) :
  delete_task task_id w =
  if existsb (fun t => t_id t =? task_id) (collection w)
  then (_save (filter (fun t => negb (t_id t =? task_id)) (collection w)) ;;; ret true) w
  else (Returned false, w).
Proof.
  unfold delete_task. rewrite bind_load.
  destruct (existsb _ (collection w)) eqn:X.
  - apply existsb_exists in X. destruct X as (t & Hin & E).
    apply Z.eqb_eq in E.
    assert (H : In task_id (ids (collection w)))
      by (unfold ids; rewrite in_map_iff; now exists t).
    pose proof (filter_other_ids_shorter task_id _ H) as L.
    destruct (Nat.eqb_spec
                (List.length (filter (fun t => negb (t_id t =? task_id)) (collection w)))
                (List.length (collection w))) as [Q|Q]; [lia | reflexivity].
  - assert (H : ~ In task_id (ids (collection w))).
    { unfold ids. rewrite in_map_iff. intros (t & E & Hin).
      assert (existsb (fun t => t_id t =? task_id) (collection w) = true).
      { apply existsb_exists. exists t. split; [exact Hin | now apply Z.eqb_eq]. }
      congruence. }
    rewrite (filter_other_ids_same task_id _ H), Nat.eqb_refl. reflexivity.
Qed.

Lemma existsb_id (task_id : Z) (tasks : list Task) :
  existsb (fun t => t_id t =? task_id) tasks = true <-> In task_id (ids tasks).
Proof.
  unfold ids. rewrite existsb_exists, in_map_iff. split.
  - intros (t & Hin & E). exists t. split; [now apply Z.eqb_eq | exact Hin].
  - intros (t & E & Hin). exists t. split; [exact Hin | now apply Z.eqb_eq].
Qed.

(** X1: [delete_task] returns false and leaves the world alone when no
    record has the id.  When one has it and the write goes through,
    [delete_task] returns true and saves the collection without every
    record of that id, the other records in their order: afterwards the id
    is absent and looking up any other id gives what it gave before. *)
Theorem delete_task_spec (task_id : Z) (w : world) :
  (~ In task_id (ids (collection w)) ->
   delete_task task_id w = (Returned false, w)) /\
  (In task_id (ids (collection w)) -> healthy w ->
   let rest := filter (fun t => negb (t_id t =? task_id)) (collection w) in
   delete_task task_id w = (Returned true, saved rest w) /\
   ~ In task_id (ids rest) /\
   (forall other, other <> task_id -> lookup other rest = lookup other (collection w))).
Proof.
  rewrite delete_task_run. split.
  - intros H. destruct (existsb _ _) eqn:X; [| reflexivity].
    apply existsb_id in X. contradiction.
  - intros H Hw. cbv zeta. apply existsb_id in H. rewrite H.
    rewrite (save_then_ret_healthy _ _ w Hw).
    split; [reflexivity |]. split; [apply filter_other_ids_absent |].
    intros other N. now apply lookup_filter_other.
Qed.

Lemma delete_task_spec_witness :
  delete_task 999 one_task_world = (Returned false, one_task_world) /\
  delete_task 1 one_task_world = (Returned true, saved [] one_task_world).
Proof.
  split.
  - apply (proj1 (delete_task_spec 999 one_task_world)).
    simpl. intros [H | []]. discriminate.
  - apply (proj2 (delete_task_spec 1 one_task_world)); [| constructor].
    simpl. left. reflexivity.
Defined.

(** X2: deleting the same id twice in a row: after a call of
    [delete_task] that returned, a second call with the same id finds no
    record of it, returns false and changes nothing. *)
Theorem delete_task_twice (task_id : Z) (w w1 : world) (r : bool) :
  delete_task task_id w = (Returned r, w1) ->
  delete_task task_id w1 = (Returned false, w1).
Proof.
  intros H.
  assert (A : ~ In task_id (ids (collection w1))).
  { rewrite delete_task_run in H. destruct (existsb _ (collection w)) eqn:X.
    - apply save_then_ret_returned in H. destruct H as [_ ->].
      apply filter_other_ids_absent.
    - injection H as _ <-. intros Hin. apply existsb_id in Hin. congruence. }
  rewrite delete_task_run.
  destruct (existsb _ (collection w1)) eqn:X; [| reflexivity].
  apply existsb_id in X. contradiction.
Qed.

Lemma delete_task_twice_witness :
  delete_task 1 (saved [] one_task_world) = (Returned false, saved [] one_task_world).
Proof.
  apply (delete_task_twice 1 one_task_world (saved [] one_task_world) true).
  reflexivity.
Defined.

(** ** clear_tasks *)

(** X3: [clear_tasks] returns the number of records.  On an empty
    collection it does not write: a missing or damaged file stays as it is.
    Otherwise it saves the empty list and, the write going through, the
    collection is empty afterwards. *)
Theorem clear_tasks_spec (w : world) :
  (collection w = [] -> clear_tasks w = (Returned 0, w)) /\
  (collection w <> [] -> healthy w ->
   clear_tasks w = (Returned (len (collection w)), saved [] w) /\
   0 < len (collection w) /\
   collection (saved [] w) = []).
Proof.
  unfold clear_tasks. rewrite bind_load. split.
  - intros ->. reflexivity.
  - intros N Hw. destruct (collection w) as [|t rest] eqn:C; [contradiction |].
    assert (P : 0 < len (t :: rest)) by (unfold len; simpl; lia).
    apply Z.ltb_lt in P as P'. rewrite P'.
    rewrite (save_then_ret_healthy _ _ w Hw). repeat split; auto.
Qed.

Lemma clear_tasks_spec_witness :
  clear_tasks empty_world = (Returned 0, empty_world) /\
  clear_tasks one_task_world = (Returned 1, saved [] one_task_world).
Proof.
  split.
  - apply (proj1 (clear_tasks_spec empty_world)). reflexivity.
  - apply (proj2 (clear_tasks_spec one_task_world)); [discriminate | constructor].
Defined.

Lemma clear_tasks_empties (w w' : world) (n : Z) :
  clear_tasks w = (Returned n, w') -> collection w' = [] /\ n = len (collection w).
Proof.
  unfold clear_tasks. rewrite bind_load.
  destruct (0 <? len (collection w)) eqn:P.
  - intros H. apply save_then_ret_returned in H. destruct H as [-> ->]. now split.
  - intros H. injection H as <- <-. split; [| reflexivity].
    destruct (collection w); [reflexivity |].
    unfold len in P. simpl in P. apply Z.ltb_ge in P. lia.
Qed.

(** X4: after a [clear_tasks] that returned, the ids start again: an
    [add_task] whose write goes through assigns id 1, whatever ids the
    store held before. *)
Theorem clear_then_add_restarts_ids
    (now : string) (gen : string -> string -> string)
    (title description : string) (due_date : option string)
    (priority : Z) (summarize : bool) (w w' : world) (n : Z) :
  clear_tasks w = (Returned n, w') -> healthy w' ->
  exists t,
    add_task now gen title description due_date priority summarize w' =
      (Returned t, saved [t] w') /\
    t_id t = 1.
Proof.
  intros H Hw. apply clear_tasks_empties in H. destruct H as [C _].
  destruct (add_task_healthy now gen title description due_date priority
                             summarize w' Hw) as (t & E & Hid).
  exists t. rewrite C in E, Hid. split; [exact E | exact Hid].
Qed.

Lemma clear_then_add_restarts_ids_witness :
  exists t,
    add_task clock no_summary "New Task" "" None 3 false (saved [] one_task_world) =
      (Returned t, saved [t] (saved [] one_task_world)) /\
    t_id t = 1.
Proof.
  apply (clear_then_add_restarts_ids clock no_summary "New Task" "" None 3 false
                                     one_task_world (saved [] one_task_world) 1);
    [reflexivity | constructor].
Defined.

(** ** add_task *)

Lemma next_id_above (tasks : list Task) :
  Forall (fun u => t_id u < _next_id tasks) tasks.
Proof.
  unfold _next_id. pose proof (max_id_upper_bound tasks) as B.
  eapply Forall_impl; [| exact B]. simpl; intros u Hu; lia.
Qed.

Lemma next_id_fresh (tasks : list Task) : ~ In (_next_id tasks) (ids tasks).
Proof.
  unfold ids. rewrite in_map_iff. intros (u & E & Hin).
  pose proof (next_id_above tasks) as B. rewrite Forall_forall in B.
  specialize (B u Hin). lia.
Qed.

Lemma add_task_fields
    (now : string) (gen : string -> string -> string)
    (title description : string) (due_date : option string)
    (priority : Z) (summarize : bool) (w : world) :
  healthy w ->
  exists t,
    add_task now gen title description due_date priority summarize w =
      (Returned t, saved (collection w ++ [t]) w) /\
    t_id t = _next_id (collection w) /\
    t_status t = "pending" /\
    t_priority t = (if (priority <? 1) || (priority >? 5) then 3 else priority) /\
    t_due_date t =
      match due_date with
      | Some d =>
          if PyStr.truthy d
          then match strptime_ymd d with Some _ => Some d | None => None end
          else Some d
      | None => None
      end.
Proof.
  intros H. unfold add_task. rewrite bind_load.
  eexists. rewrite (save_then_ret_healthy _ _ w H).
  repeat split; reflexivity.
Qed.

Lemma normal_priority (priority : Z) :
  1 <= (if (priority <? 1) || (priority >? 5) then 3 else priority) <= 5.
Proof.
  destruct (Z.ltb_spec priority 1); simpl; [lia |].
  rewrite Z.gtb_ltb. destruct (Z.ltb_spec 5 priority); lia.
Qed.

(** X5: what [add_task] stores, the write going through: a priority inside
    1..5 is kept and any other becomes 3; a due date that parses is kept
    and any other text that is not empty is dropped (the record has no due
    date); the record is pending. *)
Theorem add_task_normalises
    (now : string) (gen : string -> string -> string)
    (title description : string) (due_date : option string)
    (priority : Z) (summarize : bool) (w : world) :
  healthy w ->
  exists t,
    add_task now gen title description due_date priority summarize w =
      (Returned t, saved (collection w ++ [t]) w) /\
    t_status t = "pending" /\
    1 <= t_priority t <= 5 /\
    (1 <= priority <= 5 -> t_priority t = priority) /\
    (priority < 1 \/ 5 < priority -> t_priority t = 3) /\
    (forall d, due_date = Some d -> strptime_ymd d <> None ->
               t_due_date t = Some d) /\
    (forall d, due_date = Some d -> d <> "" -> strptime_ymd d = None ->
               t_due_date t = None) /\
    (due_date = None -> t_due_date t = None).
Proof.
  intros H.
  destruct (add_task_fields now gen title description due_date priority
                            summarize w H) as (t & E & _ & S & P & D).
  exists t. split; [exact E |]. split; [exact S |].
  split; [rewrite P; apply normal_priority |].
  split; [| split; [| split; [| split]]].
  - intros R. rewrite P.
    destruct (Z.ltb_spec priority 1); [lia |]. simpl.
    rewrite Z.gtb_ltb. destruct (Z.ltb_spec 5 priority); [lia | reflexivity].
  - intros R. rewrite P.
    destruct (Z.ltb_spec priority 1); [reflexivity |]. simpl.
    rewrite Z.gtb_ltb. destruct (Z.ltb_spec 5 priority); [reflexivity | lia].
  - intros d -> V. rewrite D. unfold PyStr.truthy.
    destruct (String.eqb_spec d "") as [->|_]; [now rewrite strptime_empty in V |].
    simpl. destruct (strptime_ymd d); [reflexivity | contradiction].
  - intros d -> N V. rewrite D. unfold PyStr.truthy.
    destruct (String.eqb_spec d ""); [contradiction |]. simpl. now rewrite V.
  - intros ->. exact D.
Qed.

Lemma add_task_normalises_witness :
  exists t,
    add_task clock no_summary "Bad" "" (Some "invalid-date") 10 false one_task_world =
      (Returned t, saved (collection one_task_world ++ [t]) one_task_world) /\
    t_priority t = 3 /\ t_due_date t = None.
Proof.
  destruct (add_task_normalises clock no_summary "Bad" "" (Some "invalid-date") 10
                                false one_task_world)
    as (t & E & _ & _ & _ & P & _ & D & _); [constructor |].
  exists t. split; [exact E |]. split.
  - apply P. right. lia.
  - apply (D "invalid-date"); [reflexivity | discriminate | reflexivity].
Defined.

Lemma lookup_app_absent (task_id : Z) (l1 l2 : list Task) :
  ~ In task_id (ids l1) -> lookup task_id (l1 ++ l2) = lookup task_id l2.
Proof.
  unfold lookup. induction l1 as [|u l1 IH]; simpl; intros H; [reflexivity |].
  destruct (Z.eqb_spec (t_id u) task_id) as [E|N].
  - exfalso. apply H. now left.
  - apply IH. intros Hin. apply H. now right.
Qed.

Lemma lookup_app_other (task_id : Z) (l : list Task) (t : Task) :
  t_id t <> task_id -> lookup task_id (l ++ [t]) = lookup task_id l.
Proof.
  unfold lookup. intros N. induction l as [|u l IH]; simpl.
  - destruct (Z.eqb_spec (t_id t) task_id); [contradiction | reflexivity].
  - destruct (t_id u =? task_id); [reflexivity | exact IH].
Qed.

Lemma lookup_app_found (task_id : Z) (l1 l2 : list Task) (t : Task) :
  lookup task_id l1 = Some t -> lookup task_id (l1 ++ l2) = Some t.
Proof.
  unfold lookup. induction l1 as [|u l1 IH]; simpl; [discriminate |].
  destruct (t_id u =? task_id); [trivial | exact IH].
Qed.

(** X6: a record can be found under the id [add_task] returned: after an
    [add_task] whose write goes through, looking up the new id gives the
    new record, and looking up any other id gives what it gave before. *)
Theorem add_then_lookup
    (now : string) (gen : string -> string -> string)
    (title description : string) (due_date : option string)
    (priority : Z) (summarize : bool) (w : world) :
  healthy w ->
  exists t w1,
    add_task now gen title description due_date priority summarize w =
      (Returned t, w1) /\
    lookup (t_id t) (collection w1) = Some t /\
    (forall other, other <> t_id t ->
       lookup other (collection w1) = lookup other (collection w)).
Proof.
  intros H.
  destruct (add_task_healthy now gen title description due_date priority
                             summarize w H) as (t & E & Hid).
  exists t, (saved (collection w ++ [t]) w). split; [exact E |].
  rewrite collection_saved. split.
  - apply lookup_first; [| reflexivity]. rewrite Hid. apply next_id_fresh.
  - intros other N. apply lookup_app_other. congruence.
Qed.

Lemma add_then_lookup_witness :
  exists t w1,
    add_task clock no_summary "Next Task" "" None 3 false one_task_world =
      (Returned t, w1) /\
    lookup (t_id t) (collection w1) = Some t /\
    (forall other, other <> t_id t ->
       lookup other (collection w1) = lookup other (collection one_task_world)).
Proof.
  apply (add_then_lookup clock no_summary "Next Task" "" None 3 false one_task_world).
  constructor.
Defined.

(** X7: [delete_task] undoes [add_task]: deleting the id that an
    [add_task] just returned removes that record and no other, so the
    collection is what it was before the add (both writes going through). *)
Theorem add_then_delete
    (now : string) (gen : string -> string -> string)
    (title description : string) (due_date : option string)
    (priority : Z) (summarize : bool) (w : world) :
  healthy w ->
  exists t w1 w2,
    add_task now gen title description due_date priority summarize w =
      (Returned t, w1) /\
    delete_task (t_id t) w1 = (Returned true, w2) /\
    collection w2 = collection w.
Proof.
  intros H.
  destruct (add_task_healthy now gen title description due_date priority
                             summarize w H) as (t & E & Hid).
  set (w1 := saved (collection w ++ [t]) w) in *.
  assert (F : filter (fun u => negb (t_id u =? t_id t)) (collection w ++ [t])
              = collection w).
  { rewrite filter_app. simpl. rewrite Z.eqb_refl. simpl. rewrite app_nil_r.
    apply filter_other_ids_same. rewrite Hid. apply next_id_fresh. }
  exists t, w1, (saved (collection w) w1). split; [exact E |].
  rewrite delete_task_run. unfold w1 at 1 2. rewrite collection_saved.
  assert (X : existsb (fun u => t_id u =? t_id t) (collection w ++ [t]) = true).
  { apply existsb_id. unfold ids. rewrite map_app. apply in_or_app.
    right. now left. }
  rewrite X, F.
  rewrite (save_then_ret_healthy _ _ w1 (saved_healthy _ w H)).
  split; reflexivity.
Qed.

Lemma add_then_delete_witness :
  exists t w1 w2,
    add_task clock no_summary "Next Task" "" None 3 false one_task_world =
      (Returned t, w1) /\
    delete_task (t_id t) w1 = (Returned true, w2) /\
    collection w2 = collection one_task_world.
Proof.
  apply (add_then_delete clock no_summary "Next Task" "" None 3 false one_task_world).
  constructor.
Defined.

(** ** prioritize_task *)

Lemma split_at_first_found (task_id : Z) (tasks before after : list Task) (t : Task) :
  split_at_first task_id tasks = Some (before, t, after) ->
  tasks = before ++ t :: after /\ t_id t = task_id /\ ~ In task_id (ids before).
Proof.
  revert before. induction tasks as [|u rest IH]; simpl; intros before H.
  - discriminate.
  - destruct (Z.eqb_spec (t_id u) task_id) as [E|N].
    + injection H as <- <- <-. repeat split; auto.
    + destruct (split_at_first task_id rest) as [[[b x] a]|]; [| discriminate].
      injection H as <- <- <-.
      destruct (IH b eq_refl) as (-> & Hx & Hb).
      repeat split; auto. simpl. intros [E|Hin]; [contradiction | now apply Hb].
Qed.

Lemma split_at_first_absent (task_id : Z) (tasks : list Task) :
  split_at_first task_id tasks = None <-> ~ In task_id (ids tasks).
Proof.
  induction tasks as [|u rest IH]; simpl.
  - split; [intros _ [] | reflexivity].
  - destruct (Z.eqb_spec (t_id u) task_id) as [E|N].
    + split; [discriminate | intros H; exfalso; apply H; now left].
    + destruct (split_at_first task_id rest) as [[[b x] a]|].
      * split; [discriminate |]. intros H. exfalso.
        assert (Hn : ~ In task_id (ids rest)) by (intros Hin; apply H; now right).
        apply IH in Hn. discriminate.
      * split; [| reflexivity]. intros _ [E|Hin]; [contradiction |].
        destruct IH as [IH _]. now apply IH.
Qed.

Lemma catch_save {A : Type} (a b : A) (tasks : list Task) (w : world) :
  catch (_save tasks ;;; ret a) (fun _ => ret b) w =
  (match fst (_save tasks w) with
   | Returned _ => Returned a
   | Raised _ => Returned b
   end, snd (_save tasks w)).
Proof.
  unfold catch. rewrite save_then_ret.
  destruct (fst (_save tasks w)); reflexivity.
Qed.

Lemma priority_of_line_range (py : py_text) (line : string) :
  1 <= priority_of_line py line <= 5.
Proof.
  unfold priority_of_line.
  destruct (nth_error _ 1) as [piece|]; [| lia].
  destruct (int_of_str py (strip py piece)) as [p|]; [| lia].
  apply normal_priority.
Qed.

Lemma response_loop_range (py : py_text) (lines : list string) (acc : option Z) :
  (forall p, acc = Some p -> 1 <= p <= 5) ->
  forall p, fold_left (response_step py) lines acc = Some p -> 1 <= p <= 5.
Proof.
  revert acc. induction lines as [|line lines IH]; simpl; intros acc H p E.
  - now apply H.
  - apply (IH (response_step py acc line)); [| exact E].
    intros q Hq. unfold response_step in Hq.
    destruct (PyStr.startswith line "Priority:").
    + injection Hq as <-. apply priority_of_line_range.
    + now apply H.
Qed.

Lemma response_priority_range (py : py_text) (content : string) :
  1 <= response_priority py content <= 5.
Proof.
  unfold response_priority.
  destruct (fold_left _ _ None) as [p|] eqn:E; [| lia].
  apply (response_loop_range py (split_on linefeed content) None);
    [discriminate | exact E].
Qed.

Lemma response_loop_skips (py : py_text) (lines : list string) (acc : option Z) :
  Forall (fun l => PyStr.startswith l "Priority:" = false) lines ->
  fold_left (response_step py) lines acc = acc.
Proof.
  intros H. revert acc. induction H as [|line lines Hl _ IH]; intros acc; simpl.
  - reflexivity.
  - unfold response_step at 2. rewrite Hl. apply IH.
Qed.

(** X8: how the priority is read from the response: it is always in 1..5;
    it is 3 when no line starts with "Priority:"; and when several lines
    do, the last of them decides. *)
Theorem response_priority_spec (py : py_text) (content : string) :
  1 <= response_priority py content <= 5 /\
  (Forall (fun l => PyStr.startswith l "Priority:" = false)
          (split_on linefeed content) ->
   response_priority py content = 3) /\
  (forall lines line rest,
     split_on linefeed content = lines ++ line :: rest ->
     PyStr.startswith line "Priority:" = true ->
     Forall (fun l => PyStr.startswith l "Priority:" = false) rest ->
     response_priority py content = priority_of_line py line).
Proof.
  split; [apply response_priority_range |]. split.
  - intros H. unfold response_priority. now rewrite response_loop_skips.
  - intros lines line rest E P R. unfold response_priority.
    rewrite E, fold_left_app. simpl. unfold response_step at 2. rewrite P.
    now rewrite response_loop_skips.
Qed.

Lemma response_priority_spec_witness :
  response_priority ascii_text
    ("Priority: 4" ++ newline ++ "Priority: 2" ++ newline ++ "Reason: soon")%string
  = priority_of_line ascii_text "Priority: 2" /\
  response_priority ascii_text "no verdict" = 3.
Proof.
  pose proof (response_priority_spec ascii_text
                ("Priority: 4" ++ newline ++ "Priority: 2" ++ newline
                 ++ "Reason: soon")%string) as (_ & _ & L).
  pose proof (response_priority_spec ascii_text "no verdict") as (_ & N & _).
  split.
  - apply (L ["Priority: 4"] "Priority: 2" ["Reason: soon"]);
      [reflexivity | reflexivity |].
    repeat constructor.
  - apply N. repeat constructor.
Defined.

Lemma prioritize_task_run_some (py : py_text) (svc : service)
    (task_id p : Z) (w w' : world) :
  prioritize_task py svc task_id w = (Returned (Some p), w') ->
  exists l1 t l2,
    collection w = l1 ++ t :: l2 /\ t_id t = task_id /\ ~ In task_id (ids l1) /\
    collection w' = l1 ++ set_task_priority p t :: l2.
Proof.
  unfold prioritize_task.
  destruct (available svc); [| discriminate]. cbn [negb]. rewrite bind_load.
  destruct (split_at_first task_id (collection w)) as [[[b t] a]|] eqn:S;
    [| discriminate].
  destruct (create svc _) as [text|name]; [| discriminate].
  rewrite catch_save.
  destruct (fst (_save _ w)) as [[]|e] eqn:E; [| discriminate].
  intros H. injection H as <- <-.
  destruct (split_at_first_found _ _ _ _ _ S) as (C & Ht & Hb).
  exists b, t, a. repeat split; auto. now apply save_returned.
Qed.

(** X9: [prioritize_task] gives no result, and neither calls [_save] nor
    touches the store, when the service is not available, when no record
    has the id, and when the request to the service fails: it returns
    [None] and the world is as before. *)
Theorem prioritize_task_no_result (py : py_text) (svc : service)
    (task_id : Z) (w : world) :
  (available svc = false \/ ~ In task_id (ids (collection w)) ->
   prioritize_task py svc task_id w = (Returned None, w)) /\
  (forall t name,
     lookup task_id (collection w) = Some t ->
     create svc (mkRequest "gpt-4o-mini" (priority_prompt t) 100 3) = Failure name ->
     prioritize_task py svc task_id w = (Returned None, w)).
Proof.
  unfold prioritize_task. split.
  - intros [A | A].
    + now rewrite A.
    + destruct (available svc); [| reflexivity]. cbn [negb]. rewrite bind_load.
      apply split_at_first_absent in A. now rewrite A.
  - intros t name L F.
    destruct (available svc); [| reflexivity]. cbn [negb]. rewrite bind_load.
    destruct (split_at_first task_id (collection w)) as [[[b u] a]|] eqn:S;
      [| reflexivity].
    destruct (split_at_first_found _ _ _ _ _ S) as (C & Hu & Hb).
    rewrite C, (lookup_first task_id b a u Hb Hu) in L. injection L as ->.
    now rewrite F.
Qed.

Lemma prioritize_task_no_result_witness :
  prioritize_task ascii_text no_service 1 one_task_world =
    (Returned None, one_task_world) /\
  prioritize_task ascii_text (canned "Priority: 1") 999 one_task_world =
    (Returned None, one_task_world) /\
  prioritize_task ascii_text (mkService true (fun _ => Failure "APIError")) 1
                  one_task_world =
    (Returned None, one_task_world).
Proof.
  split; [| split].
  - apply (proj1 (prioritize_task_no_result ascii_text no_service 1 one_task_world)).
    left. reflexivity.
  - apply (proj1 (prioritize_task_no_result ascii_text (canned "Priority: 1") 999
                                            one_task_world)).
    right. simpl. intros [H | []]. discriminate.
  - apply (proj2 (prioritize_task_no_result ascii_text
                    (mkService true (fun _ => Failure "APIError")) 1 one_task_world)
                 task1 "APIError"); reflexivity.
Defined.

(** X10: when [prioritize_task] returns a priority, that priority is in
    1..5, it is the priority of the first record with the id in the saved
    collection, and nothing else in the collection has changed. *)
Theorem prioritize_task_stores (py : py_text) (svc : service)
    (task_id p : Z) (w w' : world) :
  prioritize_task py svc task_id w = (Returned (Some p), w') ->
  1 <= p <= 5 /\
  exists l1 t l2,
    collection w = l1 ++ t :: l2 /\ t_id t = task_id /\ ~ In task_id (ids l1) /\
    collection w' = l1 ++ set_task_priority p t :: l2 /\
    save_calls w' = (l1 ++ set_task_priority p t :: l2) :: save_calls w.
Proof.
  unfold prioritize_task.
  destruct (available svc); [| discriminate]. cbn [negb]. rewrite bind_load.
  destruct (split_at_first task_id (collection w)) as [[[b t] a]|] eqn:S;
    [| discriminate].
  destruct (create svc _) as [text|name]; [| discriminate].
  rewrite catch_save.
  destruct (fst (_save _ w)) as [[]|e] eqn:E; [| discriminate].
  intros H. injection H as <- <-.
  split; [apply response_priority_range |].
  destruct (split_at_first_found _ _ _ _ _ S) as (C & Ht & Hb).
  exists b, t, a. repeat split; auto.
  - now apply save_returned.
  - revert E. unfold _save.
    destruct (io_script w) as [|[| |] script]; simpl; try discriminate; reflexivity.
Qed.

Lemma prioritize_task_stores_witness :
  1 <= 1 <= 5 /\
  exists l1 t l2,
    collection one_task_world = l1 ++ t :: l2 /\ t_id t = 1 /\ ~ In 1 (ids l1) /\
    collection (saved [set_task_priority 1 task1] one_task_world) =
      l1 ++ set_task_priority 1 t :: l2 /\
    save_calls (saved [set_task_priority 1 task1] one_task_world) =
      (l1 ++ set_task_priority 1 t :: l2) :: save_calls one_task_world.
Proof.
  apply (prioritize_task_stores ascii_text (canned "Priority: 1") 1 1
                                one_task_world).
  reflexivity.
Defined.

(** X11: [prioritize_task] hides a failed write.  When the service
    answers, a record has the id and the write fails, [_save] was called
    with the updated collection, yet the caller gets [None] and no error;
    the file is as before or truncated. *)
Theorem prioritize_task_swallows_failed_save (py : py_text) (svc : service)
    (task_id : Z) (w : world) (t : Task) (text : string) :
  available svc = true ->
  lookup task_id (collection w) = Some t ->
  create svc (mkRequest "gpt-4o-mini" (priority_prompt t) 100 3) = Content text ->
  failing_write (io_script w) ->
  let w' := snd (prioritize_task py svc task_id w) in
  fst (prioritize_task py svc task_id w) = Returned None /\
  (exists tasks, save_calls w' = tasks :: save_calls w /\
                 (disk w' = disk w \/ disk w' = Truncated tasks)).
Proof.
  intros A L C F. cbv zeta. unfold prioritize_task. rewrite A. cbn [negb].
  rewrite bind_load.
  destruct (split_at_first task_id (collection w)) as [[[b u] a]|] eqn:S.
  - destruct (split_at_first_found _ _ _ _ _ S) as (Q & Hu & Hb).
    rewrite Q, (lookup_first task_id b a u Hb Hu) in L. injection L as ->.
    rewrite C, catch_save. cbn [fst snd].
    set (tasks := b ++ set_task_priority _ t :: a).
    unfold _save. destruct (io_script w) as [|[| |] script]; simpl in F;
      try contradiction; cbn [fst snd disk save_calls];
      (split; [reflexivity |]); exists tasks; split; auto.
  - apply split_at_first_absent in S. exfalso. apply S.
    unfold lookup in L. apply find_some in L. destruct L as [Hin E].
    apply Z.eqb_eq in E. unfold ids. rewrite in_map_iff. now exists t.
Qed.

Lemma prioritize_task_swallows_failed_save_witness :
  fst (prioritize_task ascii_text (canned "Priority: 1") 1 failing_disk_world)
    = Returned None /\
  (exists tasks,
     save_calls (snd (prioritize_task ascii_text (canned "Priority: 1") 1
                                      failing_disk_world))
       = tasks :: save_calls failing_disk_world /\
     (disk (snd (prioritize_task ascii_text (canned "Priority: 1") 1
                                 failing_disk_world)) = disk failing_disk_world \/
      disk (snd (prioritize_task ascii_text (canned "Priority: 1") 1
                                 failing_disk_world)) = Truncated tasks)).
Proof.
  apply (prioritize_task_swallows_failed_save ascii_text (canned "Priority: 1") 1
           failing_disk_world task1 "Priority: 1");
    [reflexivity | reflexivity | reflexivity | exact I].
Defined.

(** ** The invariants of the collection *)

Lemma well_formed_nil : well_formed [].
Proof. split; constructor. Qed.

Lemma ids_app (l1 l2 : list Task) : ids (l1 ++ l2) = ids l1 ++ ids l2.
Proof. apply map_app. Qed.

Lemma well_formed_replace (f : Task -> Task) (l1 l2 : list Task) (t : Task) :
  t_id (f t) = t_id t -> (record_ok t -> record_ok (f t)) ->
  well_formed (l1 ++ t :: l2) -> well_formed (l1 ++ f t :: l2).
Proof.
  intros Hid Hok [N F]. split.
  - rewrite ids_app in *. simpl in *. now rewrite Hid.
  - apply Forall_app in F. destruct F as [F1 F2].
    apply Forall_app. split; [exact F1 |].
    apply Forall_cons_iff in F2. destruct F2 as [Ft F2].
    constructor; [now apply Hok | exact F2].
Qed.

Lemma well_formed_update (task_id : Z) (f : Task -> Task) (tasks tasks' : list Task) :
  (forall t, t_id (f t) = t_id t) -> (forall t, record_ok t -> record_ok (f t)) ->
  update_first task_id f tasks = Some tasks' ->
  well_formed tasks -> well_formed tasks'.
Proof.
  intros Hid Hok E W.
  destruct (update_first_present _ _ _ _ E) as (l1 & t & l2 & -> & _ & _ & ->).
  apply well_formed_replace; auto.
Qed.

Lemma NoDup_map_filter {A B : Type} (g : A -> B) (p : A -> bool) (l : list A) :
  NoDup (map g l) -> NoDup (map g (filter p l)).
Proof.
  induction l as [|x l IH]; simpl; intros H; [constructor |].
  apply NoDup_cons_iff in H. destruct H as [Hx Hl].
  destruct (p x); simpl; [| now apply IH].
  constructor; [| now apply IH].
  intros Hin. apply Hx. apply in_map_iff in Hin. destruct Hin as (y & E & Hy).
  apply filter_In in Hy. apply in_map_iff. exists y. now split.
Qed.

Lemma well_formed_filter (p : Task -> bool) (tasks : list Task) :
  well_formed tasks -> well_formed (filter p tasks).
Proof.
  intros [N F]. split.
  - now apply NoDup_map_filter.
  - rewrite Forall_forall in *. intros t Hin. apply filter_In in Hin.
    apply F. tauto.
Qed.

Lemma next_id_positive (tasks : list Task) :
  Forall record_ok tasks -> 1 <= _next_id tasks.
Proof.
  intros F. destruct tasks as [|t rest]; [unfold _next_id; simpl; lia |].
  pose proof (next_id_above (t :: rest)) as B.
  apply Forall_inv in B. apply Forall_inv in F. destruct F as [F _]. lia.
Qed.

Lemma well_formed_append (tasks : list Task) (t : Task) :
  t_id t = _next_id tasks ->
  1 <= t_priority t <= 5 ->
  (t_status t = "pending" \/ t_status t = "complete") ->
  match t_due_date t with
  | Some d => d = "" \/ strptime_ymd d <> None
  | None => True
  end ->
  well_formed tasks -> well_formed (tasks ++ [t]).
Proof.
  intros Hid Hp Hs Hd [N F]. split.
  - rewrite ids_app. simpl. apply NoDup_app.
    + exact N.
    + repeat constructor. intros [].
    + intros x Hx [E | []]. subst x. rewrite Hid in Hx.
      now apply (next_id_fresh tasks).
  - apply Forall_app. split; [exact F |]. constructor; [| constructor].
    repeat split; auto; try tauto. rewrite Hid. now apply next_id_positive.
Qed.

Lemma well_formed_after_save {A : Type} (a : A) (tasks : list Task) (w : world) :
  well_formed (collection w) -> well_formed tasks ->
  well_formed (collection (snd ((_save tasks ;;; ret a) w))).
Proof.
  intros W T. destruct (save_then_ret_collection a tasks w) as [-> | [-> | ->]];
    auto using well_formed_nil.
Qed.

Lemma well_formed_update_loop (task_id : Z) (f : Task -> Task) (w : world) :
  (forall t, t_id (f t) = t_id t) -> (forall t, record_ok t -> record_ok (f t)) ->
  well_formed (collection w) ->
  well_formed
    (collection
       (snd ((tasks <- _load ;;
              match update_first task_id f tasks with
              | Some tasks' => _save tasks' ;;; ret true
              | None => ret false
              end) w))).
Proof.
  intros Hid Hok W. rewrite run_update.
  destruct (update_first task_id f (collection w)) as [tasks'|] eqn:E;
    [| exact W].
  apply well_formed_after_save; [exact W |].
  exact (well_formed_update task_id f _ _ Hid Hok E W).
Qed.

Lemma edit_fields_ok (title description due_date : option string) (t : Task) :
  record_ok t -> record_ok (edit_fields title description due_date t).
Proof.
  intros (Hi & Hp & Hs & Hd). unfold record_ok.
  destruct (edit_fields_frame title description due_date t)
    as (F1 & _ & F3 & F4 & _).
  cbv zeta in *. rewrite F1, F3, F4. repeat split; try tauto; try lia.
  rewrite edit_fields_due_date. destruct due_date as [d|]; [| exact Hd].
  destruct (String.eqb_spec d ""); [exact I |].
  destruct (strptime_ymd d) eqn:P; [| exact Hd].
  right. congruence.
Qed.

(** X12: every mutation keeps the collection well formed.  If the ids of
    the stored records are distinct and positive, the priorities are in
    1..5, every status is "pending" or "complete" and every due date is
    absent, empty or a date, then the same holds of the collection in the
    store after [add_task], [complete_task], [delete_task], [set_priority],
    [edit_task], [clear_tasks] and [prioritize_task], whatever their
    arguments and whether the write went through or failed. *)
Theorem mutations_keep_well_formed (w : world) :
  well_formed (collection w) ->
  (forall now gen title description due_date priority summarize,
     well_formed
       (collection
          (snd (add_task now gen title description due_date priority summarize w)))) /\
  (forall task_id, well_formed (collection (snd (complete_task task_id w)))) /\
  (forall task_id, well_formed (collection (snd (delete_task task_id w)))) /\
  (forall task_id priority,
     well_formed (collection (snd (set_priority task_id priority w)))) /\
  (forall task_id title description due_date,
     well_formed
       (collection (snd (edit_task task_id title description due_date w)))) /\
  well_formed (collection (snd (clear_tasks w))) /\
  (forall py svc task_id,
     well_formed (collection (snd (prioritize_task py svc task_id w)))).
Proof.
  intros W. split; [| split; [| split; [| split; [| split; [| split]]]]].
  - intros. unfold add_task. rewrite bind_load.
    apply well_formed_after_save; [exact W |].
    apply well_formed_append; cbn [t_id t_priority t_status t_due_date]; auto.
    + apply normal_priority.
    + destruct due_date as [d|]; [| exact I]. unfold PyStr.truthy.
      destruct (String.eqb_spec d "") as [->|N]; simpl; [now left |].
      destruct (strptime_ymd d) eqn:P; [| exact I]. right. congruence.
  - intros. apply well_formed_update_loop; auto.
    intros t (Hi & Hp & _ & Hd). repeat split; auto; try tauto; try (now right).
  - intros. rewrite delete_task_run.
    destruct (existsb _ _); [| exact W].
    apply well_formed_after_save; [exact W | now apply well_formed_filter].
  - intros task_id priority. unfold set_priority.
    destruct ((priority <? 1) || (priority >? 5)) eqn:R; [exact W |].
    apply well_formed_update_loop; auto.
    intros t (Hi & _ & Hs & Hd). repeat split; auto; try tauto;
      apply orb_false_elim in R; destruct R as [R1 R2];
      apply Z.ltb_ge in R1; rewrite Z.gtb_ltb in R2; apply Z.ltb_ge in R2;
      simpl; lia.
  - intros. apply well_formed_update_loop.
    + intros t. now destruct (edit_fields_frame title description due_date t).
    + intros t. apply edit_fields_ok.
    + exact W.
  - unfold clear_tasks. rewrite bind_load.
    destruct (0 <? len (collection w)); [| exact W].
    apply well_formed_after_save; [exact W | apply well_formed_nil].
  - intros py svc task_id. unfold prioritize_task.
    destruct (available svc); [| exact W]. cbn [negb]. rewrite bind_load.
    destruct (split_at_first task_id (collection w)) as [[[b t] a]|] eqn:S;
      [| exact W].
    destruct (create svc _) as [text|name]; [| exact W].
    rewrite catch_save. cbn [snd].
    destruct (split_at_first_found _ _ _ _ _ S) as (C & _ & _).
    assert (T : well_formed
                  (b ++ set_task_priority (response_priority py (strip py text)) t
                     :: a)).
    { apply well_formed_replace; [reflexivity | | now rewrite <- C].
      intros (Hi & _ & Hs & Hd). repeat split; auto; try tauto;
        apply response_priority_range. }
    destruct (save_collection
                (b ++ set_task_priority (response_priority py (strip py text)) t :: a)
                w) as [-> | [-> | ->]]; auto using well_formed_nil.
Qed.

Lemma mutations_keep_well_formed_witness :
  well_formed
    (collection (snd (add_task clock no_summary "Bad" "" (Some "someday") 9 false
                               one_task_world))) /\
  well_formed (collection (snd (complete_task 1 failing_disk_world))).
Proof.
  assert (W : well_formed [task1]).
  { split.
    - simpl. constructor; [intros [] | constructor].
    - constructor; [| constructor]. unfold record_ok. simpl.
      split; [lia |]. split; [lia |]. split; [now left |].
      right. vm_compute. discriminate. }
  split.
  - apply (proj1 (mutations_keep_well_formed one_task_world W)).
  - apply (proj1 (proj2 (mutations_keep_well_formed failing_disk_world W))).
Defined.

(** ** Completed records stay completed *)

Lemma lookup_update_first (task_id other : Z) (f : Task -> Task)
    (tasks tasks' : list Task) :
  (forall t, t_id (f t) = t_id t) ->
  update_first task_id f tasks = Some tasks' ->
  lookup other tasks' =
  if other =? task_id then option_map f (lookup other tasks) else lookup other tasks.
Proof.
  intros Hid. unfold lookup. revert tasks'.
  induction tasks as [|t rest IH]; simpl; intros tasks' E; [discriminate |].
  destruct (Z.eqb_spec (t_id t) task_id) as [Et|Nt].
  - injection E as <-. simpl. rewrite Hid.
    destruct (Z.eqb_spec other task_id) as [->|No].
    + rewrite Et, Z.eqb_refl. reflexivity.
    + destruct (Z.eqb_spec (t_id t) other); [congruence | reflexivity].
  - destruct (update_first task_id f rest) as [r|]; [| discriminate].
    simpl in E. injection E as <-. simpl.
    destruct (Z.eqb_spec (t_id t) other) as [Eo|No].
    + destruct (Z.eqb_spec other task_id); [congruence | reflexivity].
    + now apply IH.
Qed.

Lemma complete_after_update (task_id other : Z) (f : Task -> Task)
    (tasks tasks' : list Task) (t : Task) :
  (forall u, t_id (f u) = t_id u) ->
  (forall u, t_status u = "complete" -> t_status (f u) = "complete") ->
  update_first task_id f tasks = Some tasks' ->
  lookup other tasks = Some t -> t_status t = "complete" ->
  exists t', lookup other tasks' = Some t' /\ t_status t' = "complete".
Proof.
  intros Hid Hst E L S. rewrite (lookup_update_first _ _ _ _ _ Hid E), L.
  destruct (other =? task_id); simpl; eexists; split; eauto.
Qed.

Lemma complete_after_update_loop (task_id other : Z) (f : Task -> Task)
    (w w' : world) (r : bool) (t : Task) :
  (forall u, t_id (f u) = t_id u) ->
  (forall u, t_status u = "complete" -> t_status (f u) = "complete") ->
  (tasks <- _load ;;
   match update_first task_id f tasks with
   | Some tasks' => _save tasks' ;;; ret true
   | None => ret false
   end) w = (Returned r, w') ->
  lookup other (collection w) = Some t -> t_status t = "complete" ->
  exists t', lookup other (collection w') = Some t' /\ t_status t' = "complete".
Proof.
  intros Hid Hst R L S. rewrite run_update in R.
  destruct (update_first task_id f (collection w)) as [tasks'|] eqn:E.
  - apply save_then_ret_returned in R. destruct R as [_ ->].
    exact (complete_after_update _ _ _ _ _ _ Hid Hst E L S).
  - injection R as _ <-. now exists t.
Qed.

(** X13: no operation reopens a completed record.  If the record found
    under an id has status "complete", then after any [add_task],
    [complete_task], [set_priority] or [edit_task] that returned, and after
    any [prioritize_task] that returned a priority, the record found under
    that id still has status "complete". *)
Theorem completed_stays_completed (other : Z) (t : Task) (w : world) :
  lookup other (collection w) = Some t -> t_status t = "complete" ->
  let still_complete w' :=
    exists t', lookup other (collection w') = Some t' /\ t_status t' = "complete" in
  (forall now gen title description due_date priority summarize r w',
     add_task now gen title description due_date priority summarize w
       = (Returned r, w') -> still_complete w') /\
  (forall task_id r w',
     complete_task task_id w = (Returned r, w') -> still_complete w') /\
  (forall task_id priority r w',
     set_priority task_id priority w = (Returned r, w') -> still_complete w') /\
  (forall task_id title description due_date r w',
     edit_task task_id title description due_date w = (Returned r, w') ->
     still_complete w') /\
  (forall py svc task_id p w',
     prioritize_task py svc task_id w = (Returned (Some p), w') ->
     still_complete w').
Proof.
  intros L S. cbv zeta. split; [| split; [| split; [| split]]].
  - intros now gen title description due_date priority summarize r w'.
    unfold add_task. rewrite bind_load. intros R.
    apply save_then_ret_returned in R. destruct R as [_ ->].
    exists t. split; [| exact S]. now apply lookup_app_found.
  - intros task_id r w' R.
    exact (complete_after_update_loop task_id other (set_status "complete")
             w w' r t (fun _ => eq_refl) (fun _ _ => eq_refl) R L S).
  - intros task_id priority r w'. unfold set_priority.
    destruct ((priority <? 1) || (priority >? 5)).
    + intros R. injection R as _ <-. now exists t.
    + intros R.
      exact (complete_after_update_loop task_id other (set_task_priority priority)
               w w' r t (fun _ => eq_refl) (fun _ H => H) R L S).
  - intros task_id title description due_date r w' R.
    refine (complete_after_update_loop task_id other
              (edit_fields title description due_date) w w' r t _ _ R L S).
    + intros u. now destruct (edit_fields_frame title description due_date u).
    + intros u Hu.
      destruct (edit_fields_frame title description due_date u)
        as (_ & _ & _ & F4 & _). cbv zeta in F4. congruence.
  - intros py svc task_id p w' R.
    destruct (prioritize_task_run_some py svc task_id p w w' R)
      as (b & u & a & C & Hu & Hb & ->).
    assert (E : update_first task_id (set_task_priority p) (collection w)
                = Some (b ++ set_task_priority p u :: a))
      by (rewrite C; now apply update_first_at).
    exact (complete_after_update task_id other (set_task_priority p) _ _ t
             (fun _ => eq_refl) (fun _ H => H) E L S).
Qed.

Lemma completed_stays_completed_witness :
  exists t',
    lookup 1 (collection (snd (edit_task 1 (Some "Renamed") None (Some "") done_world)))
      = Some t' /\
    t_status t' = "complete".
Proof.
  apply (proj1 (proj2 (proj2 (proj2
           (completed_stays_completed 1 (set_status "complete" task1) done_world
                                      eq_refl eq_refl))))
           1 (Some "Renamed") None (Some "") true
           (snd (edit_task 1 (Some "Renamed") None (Some "") done_world))).
  reflexivity.
Defined.

(** ** suggest_tasks *)

Lemma truthy_nonempty (s : string) : PyStr.truthy s = true -> s <> "".
Proof.
  unfold PyStr.truthy. destruct (String.eqb_spec s ""); [discriminate | trivial].
Qed.

Lemma clean_loop_nonempty (py : py_text) (suggestions cleaned : list string) :
  Forall (fun s => s <> "") cleaned ->
  Forall (fun s => s <> "") (fold_left (clean_step py) suggestions cleaned).
Proof.
  revert cleaned. induction suggestions as [|s rest IH]; simpl; intros cleaned H.
  - exact H.
  - apply IH. unfold clean_step.
    destruct (PyStr.truthy (strip py (lstrip_chars py s "0123456789.-•* "))) eqn:T;
      [| exact H].
    apply Forall_app. split; [exact H |].
    constructor; [now apply truthy_nonempty | constructor].
Qed.

Lemma clean_suggestions_nonempty (py : py_text) (content : string) :
  clean_suggestions py content <> [] /\
  Forall (fun s => s <> "") (clean_suggestions py content).
Proof.
  unfold clean_suggestions.
  pose proof (clean_loop_nonempty py
                (map (strip py)
                     (filter (fun line => PyStr.truthy (strip py line))
                             (split_on linefeed content))) [] (Forall_nil _)) as H.
  destruct (fold_left _ _ []) as [|s cleaned].
  - split; [discriminate |]. repeat constructor. discriminate.
  - split; [discriminate | exact H].
Qed.

(** X14: what [suggest_tasks] returns.  Whenever it returns, it has not
    written to the store, its result is not the empty list and holds no
    empty text, whatever the service answered; without the service the
    result is the one placeholder line. *)
Theorem suggest_tasks_result (py : py_text) (svc : service) (context : string)
    (w w' : world) (suggestions : list string) :
  suggest_tasks py svc context w = (Returned suggestions, w') ->
  w' = w /\
  suggestions <> [] /\
  Forall (fun s => s <> "") suggestions /\
  (available svc = false ->
   suggestions = ["(Task suggestions unavailable: OpenAI API key not set)"]).
Proof.
  unfold suggest_tasks. destruct (available svc).
  - cbn [negb]. rewrite bind_load.
    destruct (create svc _) as [text|name]; intros H; injection H as <- <-.
    + destruct (clean_suggestions_nonempty py (strip py text)) as [N F].
      split; [reflexivity |]. split; [exact N |]. split; [exact F | discriminate].
    + split; [reflexivity |]. split; [discriminate |].
      split; [| discriminate]. repeat constructor. discriminate.
  - intros H. injection H as <- <-.
    split; [reflexivity |]. split; [discriminate |].
    split; [| reflexivity]. repeat constructor. discriminate.
Qed.

Lemma suggest_tasks_result_witness :
  one_task_world = one_task_world /\
  ["Buy milk"; "Call home"] <> [] /\
  Forall (fun s => s <> "") ["Buy milk"; "Call home"] /\
  (available (canned ("1. Buy milk" ++ newline ++ "- Call home")%string) = false ->
   ["Buy milk"; "Call home"] =
     ["(Task suggestions unavailable: OpenAI API key not set)"]).
Proof.
  apply (suggest_tasks_result ascii_text
           (canned ("1. Buy milk" ++ newline ++ "- Call home")%string) ""
           one_task_world one_task_world ["Buy milk"; "Call home"]).
  reflexivity.
Defined.

(** ** list_tasks by priority *)

Lemma str_le_trans (a b c : string) :
  (a <? b)%string = true \/ a = b ->
  (b <? c)%string = true \/ b = c ->
  (a <? c)%string = true \/ a = c.
Proof.
  intros [H1 | ->] [H2 | ->]; auto. left. now apply (str_ltb_trans a b c).
Qed.

Lemma priority_key_ltb_false (a b : Z * string) :
  priority_key_ltb b a = false <->
  fst a < fst b \/
  (fst a = fst b /\ ((snd a <? snd b)%string = true \/ snd a = snd b)).
Proof.
  unfold priority_key_ltb, tuple_ltb. destruct a as [p1 s1], b as [p2 s2]; simpl.
  destruct (Z.eqb_spec p2 p1) as [->|N].
  - split.
    + intros H. right. split; [reflexivity |].
      destruct (s1 <? s2)%string eqn:E; [now left | right].
      now apply str_ltb_total.
    + intros [H | [_ [H | ->]]]; [lia | now apply str_ltb_asym |
                                  apply str_ltb_irrefl].
  - rewrite Z.ltb_ge. split.
    + intros H. left. lia.
    + intros [H | [H _]]; [lia | congruence].
Qed.

Lemma priority_key_ltb_asym (a b : Z * string) :
  priority_key_ltb a b = true -> priority_key_ltb b a = false.
Proof.
  intros H. apply priority_key_ltb_false.
  unfold priority_key_ltb, tuple_ltb in H. destruct a as [p1 s1], b as [p2 s2].
  simpl in *. destruct (Z.eqb_spec p1 p2) as [->|N].
  - right. split; [reflexivity |]. now left.
  - left. apply Z.ltb_lt in H. exact H.
Qed.

Lemma priority_key_ltb_negtrans (a b c : Z * string) :
  priority_key_ltb b a = false -> priority_key_ltb c b = false ->
  priority_key_ltb c a = false.
Proof.
  rewrite !priority_key_ltb_false.
  intros [H1 | [E1 L1]] [H2 | [E2 L2]].
  - left. lia.
  - left. lia.
  - left. lia.
  - right. split; [congruence |]. exact (str_le_trans _ _ _ L1 L2).
Qed.

Lemma not_after_priority_order (a b : Task) :
  not_after priority_key_ltb sort_key_priority a b <-> priority_order a b.
Proof. unfold not_after, priority_order. now rewrite priority_key_ltb_false. Qed.

Lemma list_tasks_run (filter_mode sort_mode : string) (w : world) :
  list_tasks filter_mode sort_mode w =
  (Returned
     (if (sort_mode =? "due")%string
      then sorted due_key_ltb sort_key_due
                  (filter (selected filter_mode) (collection w))
      else sorted priority_key_ltb sort_key_priority
                  (filter (selected filter_mode) (collection w))), w).
Proof.
  unfold list_tasks. rewrite bind_load. unfold ret. do 2 f_equal.
  assert (E : (if (filter_mode =? "pending")%string
               then filter (fun t => (t_status t =? "pending")%string) (collection w)
               else if (filter_mode =? "completed")%string
               then filter (fun t => (t_status t =? "complete")%string) (collection w)
               else collection w)
              = filter (selected filter_mode) (collection w)).
  { unfold selected.
    destruct (filter_mode =? "pending")%string; [reflexivity |].
    destruct (filter_mode =? "completed")%string; [reflexivity |].
    symmetry. apply filter_all. }
  now rewrite E.
Qed.

(** X15: with any [sort_mode] other than "due", [list_tasks] returns the
    records the filter selects ("pending": status "pending"; "completed":
    status "complete"; any other [filter_mode]: all of them) in ascending
    order of priority, and within one priority in ascending order of the
    due date text, a record without a due date counting as "9999-12-31".
    The store is not touched. *)
Theorem list_tasks_priority_order (filter_mode sort_mode : string) (w : world) :
  sort_mode <> "due" ->
  exists out,
    list_tasks filter_mode sort_mode w = (Returned out, w) /\
    Permutation out (filter (selected filter_mode) (collection w)) /\
    StronglySorted priority_order out /\
    (filter_mode <> "pending" -> filter_mode <> "completed" ->
     Permutation out (collection w)).
Proof.
  intros N. rewrite list_tasks_run.
  destruct (String.eqb_spec sort_mode "due") as [E|_]; [contradiction |].
  eexists. split; [reflexivity |]. split; [apply sorted_perm |]. split.
  - apply (strongly_sorted_weaken (not_after priority_key_ltb sort_key_priority)).
    + intros a b. apply not_after_priority_order.
    + apply (sorted_sorted priority_key_ltb sort_key_priority
                           priority_key_ltb_asym priority_key_ltb_negtrans).
  - intros N1 N2. rewrite sorted_perm. unfold selected.
    destruct (String.eqb_spec filter_mode "pending"); [contradiction |].
    destruct (String.eqb_spec filter_mode "completed"); [contradiction |].
    now rewrite filter_all.
Qed.

Lemma list_tasks_priority_order_witness :
  exists out,
    list_tasks "all" "priority" mixed_world = (Returned out, mixed_world) /\
    Permutation out (filter (selected "all") (collection mixed_world)) /\
    StronglySorted priority_order out /\
    ("all" <> "pending" -> "all" <> "completed" ->
     Permutation out (collection mixed_world)).
Proof.
  apply (list_tasks_priority_order "all" "priority" mixed_world). discriminate.
Defined.

(** ** Stability of the listing *)

Section Stable.
Context {A K : Type} (ltb : K -> K -> bool) (key : A -> K) (class : A -> bool).

Hypothesis class_not_below :
  forall x y, class x = true -> class y = true -> ltb (key y) (key x) = false.

Lemma insert_class (x : A) (l : list A) :
  filter class (insert ltb key x l) = filter class (x :: l).
Proof.
  induction l as [|y l IH]; [reflexivity |].
  cbn [insert]. destruct (ltb (key y) (key x)) eqn:E; [| reflexivity].
  cbn [filter] in *. rewrite IH.
  destruct (class x) eqn:Cx; [| reflexivity].
  destruct (class y) eqn:Cy; [| reflexivity].
  rewrite (class_not_below x y Cx Cy) in E. discriminate.
Qed.

Lemma sorted_class (l : list A) :
  filter class (sorted ltb key l) = filter class l.
Proof.
  induction l as [|x l IH]; [reflexivity |].
  cbn [sorted]. rewrite insert_class. cbn [filter]. now rewrite IH.
Qed.

End Stable.

Lemma same_rank_keys (t0 x : Task) :
  same_rank t0 x = true ->
  due_or_max x = due_or_max t0 /\ t_priority x = t_priority t0.
Proof.
  unfold same_rank. intros H. apply andb_prop in H. destruct H as [H1 H2].
  apply String.eqb_eq in H1. apply Z.eqb_eq in H2. split; congruence.
Qed.

(** X16: the listing is stable.  Whatever the modes, the records that have
    the same priority and the same due date text (absent counting as
    "9999-12-31") come out of [list_tasks] in the order in which the store
    holds them. *)
Theorem list_tasks_stable (filter_mode sort_mode : string) (w : world) (t0 : Task) :
  exists out,
    list_tasks filter_mode sort_mode w = (Returned out, w) /\
    filter (same_rank t0) out =
    filter (same_rank t0) (filter (selected filter_mode) (collection w)).
Proof.
  rewrite list_tasks_run. eexists. split; [reflexivity |].
  destruct (sort_mode =? "due")%string.
  - apply sorted_class. intros x y Hx Hy.
    apply same_rank_keys in Hx, Hy. destruct Hx as [Dx Px], Hy as [Dy Py].
    unfold sort_key_due. rewrite Dx, Px, Dy, Py.
    destruct (due_key_ltb (due_or_max t0, t_priority t0)
                          (due_or_max t0, t_priority t0)) eqn:E; [| reflexivity].
    now rewrite (due_key_ltb_asym _ _ E) in E.
  - apply sorted_class. intros x y Hx Hy.
    apply same_rank_keys in Hx, Hy. destruct Hx as [Dx Px], Hy as [Dy Py].
    unfold sort_key_priority. rewrite Dx, Px, Dy, Py.
    destruct (priority_key_ltb (t_priority t0, due_or_max t0)
                               (t_priority t0, due_or_max t0)) eqn:E; [| reflexivity].
    now rewrite (priority_key_ltb_asym _ _ E) in E.
Qed.

(** ** What a search finds *)

Lemma prefix_contains (q s : string) :
  String.prefix q s = true -> PyStr.contains q s = true.
Proof. intros H. destruct s; cbn [PyStr.contains]; rewrite H; reflexivity. Qed.

Lemma tiers_mention (query : string) (t : Task) :
  tier1 query t || tier2 query t = mentions query t.
Proof.
  unfold tier2, mentions. destruct (tier1 query t) eqn:T; [| reflexivity].
  unfold tier1, PyStr.startswith in T. apply prefix_contains in T.
  now rewrite T.
Qed.

(** X17: [search_tasks] finds exactly the records that mention the query:
    a record is in the result if and only if it is in the collection and
    the lower-cased query occurs in its lower-cased title, description or
    summary (a title that starts with the query contains it). *)
Theorem search_tasks_finds_mentions (query : string) (w : world) :
  exists out,
    search_tasks query w = (Returned out, w) /\
    forall t, In t out <-> In t (collection w) /\ mentions query t = true.
Proof.
  unfold search_tasks. rewrite bind_load, search_loop.
  eexists. split; [reflexivity |]. intros t. cbn [app].
  rewrite in_app_iff, !filter_In, <- tiers_mention.
  destruct (tier1 query t), (tier2 query t); simpl; tauto.
Qed.

(** ** The counters of the overview *)

Lemma get_overview_run (today : date) (w : world) :
  get_overview today w =
    (Returned
       (mkOverview (len (collection w))
                   (len (filter is_pending (collection w)))
                   (len (filter is_high_priority (collection w)))
                   (len (filter (is_overdue today) (collection w)))), w).
Proof.
  unfold get_overview. rewrite bind_load. unfold ret. do 3 f_equal.
  - rewrite filter_twice. reflexivity.
  - change (fun t => (t_status t =? "pending")%string) with is_pending.
    rewrite overdue_loop. lia.
Qed.

Lemma filter_le {A : Type} (p q : A -> bool) (l : list A) :
  (forall x, q x = true -> p x = true) ->
  len (filter q l) <= len (filter p l).
Proof.
  intros H. unfold len. apply inj_le.
  induction l as [|x l IH]; simpl; [lia |].
  destruct (q x) eqn:Q.
  - rewrite (H x Q). simpl. lia.
  - destruct (p x); simpl; lia.
Qed.

(** X18: the counters of [get_overview] are ordered: the pending records
    are at most the total, and the high-priority records and the overdue
    records are each at most the pending ones; none is negative. *)
Theorem get_overview_bounds (today : date) (w : world) :
  exists o,
    get_overview today w = (Returned o, w) /\
    0 <= high_priority o <= incomplete o /\
    0 <= overdue o <= incomplete o /\
    incomplete o <= total o.
Proof.
  rewrite get_overview_run. eexists. split; [reflexivity |].
  cbn [total incomplete high_priority overdue].
  assert (P : forall (l : list Task), 0 <= len l) by (intros; unfold len; lia).
  split; [| split].
  - split; [apply P |]. apply filter_le. intros t H.
    unfold is_high_priority in H. apply andb_prop in H. tauto.
  - split; [apply P |]. apply filter_le. intros t H.
    unfold is_overdue in H. apply andb_prop in H. tauto.
  - unfold len. apply inj_le. apply filter_length_le.
Qed.

Lemma len_filter_app {A : Type} (p : A -> bool) (l1 l2 : list A) :
  len (filter p (l1 ++ l2)) = len (filter p l1) + len (filter p l2).
Proof. unfold len. rewrite filter_app, length_app. lia. Qed.

(** X19: what completing does to the overview.  After a [complete_task]
    that found the id (the write going through) the total is unchanged, and
    the number of incomplete records is one less when the record was
    pending and unchanged otherwise. *)
Theorem complete_task_overview (task_id : Z) (today : date) (w : world) (t : Task) :
  lookup task_id (collection w) = Some t -> healthy w ->
  exists w1 before after,
    complete_task task_id w = (Returned true, w1) /\
    fst (get_overview today w) = Returned before /\
    fst (get_overview today w1) = Returned after /\
    total after = total before /\
    incomplete after = incomplete before - (if is_pending t then 1 else 0).
Proof.
  intros L Hw. unfold complete_task. rewrite run_update.
  assert (Hin : In task_id (ids (collection w))).
  { unfold lookup in L. apply find_some in L. destruct L as [Hin E].
    apply Z.eqb_eq in E. unfold ids. rewrite in_map_iff. now exists t. }
  destruct (update_first_In task_id (set_status "complete") _ Hin) as [tasks' E].
  rewrite E.
  destruct (update_first_present _ _ _ _ E) as (l1 & u & l2 & C & Hu & Hn & ->).
  rewrite C, (lookup_first task_id l1 l2 u Hn Hu) in L. injection L as ->.
  rewrite (save_then_ret_healthy _ _ w Hw).
  eexists. eexists. eexists. split; [reflexivity |].
  rewrite !get_overview_run. cbn [fst]. split; [reflexivity |].
  split; [reflexivity |]. cbn [total incomplete]. rewrite collection_saved, C.
  split.
  - unfold len. rewrite !length_app. reflexivity.
  - rewrite !len_filter_app. cbn [filter].
    change (is_pending (set_status "complete" t)) with false.
    destruct (is_pending t); unfold len; cbn [List.length]; lia.
Qed.

Lemma complete_task_overview_witness :
  exists w1 before after,
    complete_task 1 one_task_world = (Returned true, w1) /\
    fst (get_overview (mkDate 2025 11 22) one_task_world) = Returned before /\
    fst (get_overview (mkDate 2025 11 22) w1) = Returned after /\
    total after = total before /\
    incomplete after = incomplete before - (if is_pending task1 then 1 else 0).
Proof.
  apply (complete_task_overview 1 (mkDate 2025 11 22) one_task_world task1);
    [reflexivity | constructor].
Defined.

(** ** The two filtered listings *)

Lemma filter_ext_on {A : Type} (p q : A -> bool) (P : A -> Prop) (l : list A) :
  Forall P l -> (forall x, P x -> p x = q x) -> filter p l = filter q l.
Proof.
  intros F H. induction F as [|x l Hx _ IH]; simpl; [reflexivity |].
  now rewrite (H x Hx), IH.
Qed.

Lemma status_is_one_of_two (t : Task) :
  record_ok t ->
  selected "pending" t || selected "completed" t = true /\
  selected "pending" t && selected "completed" t = false.
Proof.
  intros (_ & _ & [S | S] & _); unfold selected; simpl; rewrite S; split; reflexivity.
Qed.

(** X20: on a well-formed collection the listings of the pending and of
    the completed records share no record and together hold every record
    of the collection exactly once. *)
Theorem list_tasks_partition (sort_mode : string) (w : world) :
  well_formed (collection w) ->
  exists pending completed,
    list_tasks "pending" sort_mode w = (Returned pending, w) /\
    list_tasks "completed" sort_mode w = (Returned completed, w) /\
    Permutation (pending ++ completed) (collection w) /\
    (forall t, In t pending -> ~ In t completed).
Proof.
  intros [_ F]. rewrite !list_tasks_run.
  eexists. eexists. split; [reflexivity |]. split; [reflexivity |].
  assert (S : forall fm,
             Permutation
               (if (sort_mode =? "due")%string
                then sorted due_key_ltb sort_key_due
                            (filter (selected fm) (collection w))
                else sorted priority_key_ltb sort_key_priority
                            (filter (selected fm) (collection w)))
               (filter (selected fm) (collection w)))
    by (intros fm; destruct (sort_mode =? "due")%string; apply sorted_perm).
  split.
  - rewrite (S "pending"), (S "completed").
    rewrite disjoint_filters_perm.
    + rewrite (filter_ext_on _ (fun _ => true) record_ok _ F).
      * now rewrite filter_all.
      * intros t Ht. now destruct (status_is_one_of_two t Ht).
    + intros t. unfold selected. simpl.
      destruct (String.eqb_spec (t_status t) "pending") as [E|_]; [| reflexivity].
      rewrite E. reflexivity.
  - intros t Hp Hc.
    apply (Permutation_in _ (S "pending")) in Hp.
    apply (Permutation_in _ (S "completed")) in Hc.
    apply filter_In in Hp, Hc. destruct Hp as [_ Hp], Hc as [_ Hc].
    unfold selected in Hp, Hc. simpl in Hp, Hc.
    apply String.eqb_eq in Hp. rewrite Hp in Hc. discriminate.
Qed.

Lemma list_tasks_partition_witness :
  exists pending completed,
    list_tasks "pending" "due" overview_world = (Returned pending, overview_world) /\
    list_tasks "completed" "due" overview_world = (Returned completed, overview_world) /\
    Permutation (pending ++ completed) (collection overview_world) /\
    (forall t, In t pending -> ~ In t completed).
Proof.
  apply (list_tasks_partition "due" overview_world).
  unfold well_formed. split.
  - simpl. repeat (constructor; [simpl; intuition discriminate |]). constructor.
  - repeat (constructor;
            [unfold record_ok; simpl;
             repeat split; try lia; try (now left); try (now right);
             right; vm_compute; discriminate |]).
    constructor.
Defined.

(** ** What no mutation changes *)

Lemma update_first_keeps {B : Type} (g : Task -> B) (task_id : Z)
    (f : Task -> Task) (tasks tasks' : list Task) :
  (forall t, g (f t) = g t) ->
  update_first task_id f tasks = Some tasks' -> map g tasks' = map g tasks.
Proof.
  intros H E.
  destruct (update_first_present _ _ _ _ E) as (l1 & t & l2 & -> & _ & _ & ->).
  rewrite !map_app. simpl. now rewrite H.
Qed.

Lemma update_loop_keeps {B : Type} (g : Task -> B) (task_id : Z)
    (f : Task -> Task) (w w' : world) (r : bool) :
  (forall t, g (f t) = g t) ->
  (tasks <- _load ;;
   match update_first task_id f tasks with
   | Some tasks' => _save tasks' ;;; ret true
   | None => ret false
   end) w = (Returned r, w') ->
  map g (collection w') = map g (collection w).
Proof.
  intros H R. rewrite run_update in R.
  destruct (update_first task_id f (collection w)) as [tasks'|] eqn:E.
  - apply save_then_ret_returned in R. destruct R as [_ ->].
    exact (update_first_keeps g _ _ _ _ H E).
  - now injection R as _ <-.
Qed.

(** X21: ids and creation times are fixed at creation.  After any
    [complete_task], [set_priority] or [edit_task] that returned, and any
    [prioritize_task] that returned a priority, the store holds the same
    number of records, with the same ids and creation times in the same
    order. *)
Theorem identity_is_immutable (w : world) :
  let identity t := (t_id t, t_created_at t) in
  (forall task_id r w',
     complete_task task_id w = (Returned r, w') ->
     map identity (collection w') = map identity (collection w)) /\
  (forall task_id priority r w',
     set_priority task_id priority w = (Returned r, w') ->
     map identity (collection w') = map identity (collection w)) /\
  (forall task_id title description due_date r w',
     edit_task task_id title description due_date w = (Returned r, w') ->
     map identity (collection w') = map identity (collection w)) /\
  (forall py svc task_id p w',
     prioritize_task py svc task_id w = (Returned (Some p), w') ->
     map identity (collection w') = map identity (collection w)).
Proof.
  cbv zeta. split; [| split; [| split]].
  - intros task_id r w' R.
    exact (update_loop_keeps (fun t => (t_id t, t_created_at t)) task_id
             (set_status "complete") w w' r (fun _ => eq_refl) R).
  - intros task_id priority r w'. unfold set_priority.
    destruct ((priority <? 1) || (priority >? 5)).
    + intros R. now injection R as _ <-.
    + intros R.
      exact (update_loop_keeps (fun t => (t_id t, t_created_at t)) task_id
               (set_task_priority priority) w w' r
               (fun _ => eq_refl) R).
  - intros task_id title description due_date r w' R.
    refine (update_loop_keeps (fun t => (t_id t, t_created_at t)) task_id
              (edit_fields title description due_date)
              w w' r _ R).
    intros t. destruct (edit_fields_frame title description due_date t)
      as (F1 & F2 & _). cbv zeta in F1, F2. now rewrite F1, F2.
  - intros py svc task_id p w' R.
    destruct (prioritize_task_run_some py svc task_id p w w' R)
      as (b & u & a & C & _ & _ & ->).
    rewrite C, !map_app. reflexivity.
Qed.

(** ** Saving *)






